(** * unfollow.ts: unfollowUser, getMyFollowers, isFollowingMe

    A shallow embedding of [src/unfollow.ts].  The three exported functions
    are asynchronous and talk to two collaborators: the [TwitterAuth] object
    and the v2 API client it hands out.  The collaborators are modelled as
    arbitrary deterministic state transformers over an abstract world [W];
    every awaited call is appended to a log together with its reply, so that
    statements about "which requests were issued" can be made on the log.

    Conventions of the model:
    - [maxResults] and the page size are integers ([Z]); fractional numbers
      and NaN are outside the model;
    - a thrown value is either an [Error] object, of which only the message
      is kept, or some other value;
    - the [do ... while] loop of [getMyFollowers] takes a fuel argument that
      bounds the number of iterations; [OutOfFuel] marks a run that had not
      finished after that many of them. *)

From Stdlib Require Import String List ZArith Lia Bool.
Import ListNotations.

Local Open Scope Z_scope.
Local Open Scope list_scope.

Infix "+++" := String.append (right associativity, at level 60).

(** ** JavaScript values and truthiness *)

(** What a [throw] can carry. *)
Inductive thrown : Type :=
| ErrorObj (message : string)
| NonError (value : string).

(** A string-valued property that may be [undefined] is truthy exactly when it
    is present and not the empty string. *)
Definition truthy (s : option string) : bool :=
  match s with
  | Some v => negb (String.eqb v EmptyString)
  | None => false
  end.

(** [s || d] on an optional string. *)
Definition or_else (s : option string) (d : string) : string :=
  match s with
  | Some v => if String.eqb v EmptyString then d else v
  | None => d
  end.

(** ** Data of the API and of the library *)

Record PublicMetrics : Type := {
  followers_count : option Z;
  following_count : option Z
}.

Module UserV2.
Record t : Type := mk {
  id : string;
  name : string;
  username : string;
  profile_image_url : option string;
  description : option string;
  verified : option bool;
  protected : option bool;
  public_metrics : option PublicMetrics
}.
End UserV2.

Module TwitterUser.
Record t : Type := mk {
  id : string;
  screenName : string;
  name : string;
  profileImageUrl : string;
  description : option string;
  verified : option bool;
  protected : option bool;
  followersCount : option Z;
  friendsCount : option Z
}.
End TwitterUser.

(** The result of [auth.me()], when there is one. *)
Record Profile : Type := { userId : option string }.

(** [{ data?: UserV2 }] *)
Record UserV2Result : Type := { user_data : option UserV2.t }.

Record TimelineMeta : Type := { next_token : option string }.

(** [{ data?: UserV2[], meta: { next_token?: string } }] *)
Record UserTimeline : Type := {
  data : option (list UserV2.t);
  meta : TimelineMeta
}.

(** The options object of [followers] and [following]. *)
Record TimelineParams : Type := {
  max_results : Z;
  pagination_token : option string;
  user_fields : list string
}.

(** ** Collaborators *)

Inductive reply (A : Type) : Type :=
| Ok (a : A)
| Fail (e : thrown).
Arguments Ok {A} a.
Arguments Fail {A} e.

(** [v2client.v2]: the four endpoints the file uses. *)
Module V2.
Record t (W : Type) : Type := mk {
  userByUsername : string -> W -> reply UserV2Result * W;
  unfollow : string -> string -> W -> reply unit * W;
  followers : string -> TimelineParams -> W -> reply UserTimeline * W;
  following : string -> TimelineParams -> W -> reply UserTimeline * W
}.
Arguments mk {W} _ _ _ _.
Arguments userByUsername {W} _ _ _.
Arguments unfollow {W} _ _ _ _.
Arguments followers {W} _ _ _ _.
Arguments following {W} _ _ _ _.
End V2.

Record TwitterAuth (W : Type) : Type := {
  getV2Client : W -> option (V2.t W);
  me : W -> reply (option Profile) * W
}.
Arguments getV2Client {W} _ _.
Arguments me {W} _ _.

(** One awaited call, with what it answered. *)
Inductive event : Type :=
| CallUserByUsername (username : string) (r : reply UserV2Result)
| CallMe (r : reply (option Profile))
| CallUnfollow (source target : string) (r : reply unit)
| CallFollowers (user : string) (params : TimelineParams) (r : reply UserTimeline)
| CallFollowing (user : string) (params : TimelineParams) (r : reply UserTimeline).

(** ** The monad of the three functions: world, log, exceptions, fuel *)

Inductive outcome (A : Type) : Type :=
| Done (a : A)
| Raised (e : thrown)
| OutOfFuel.
Arguments Done {A} a.
Arguments Raised {A} e.
Arguments OutOfFuel {A}.

Section Monad.
Context {W : Type}.

Definition M (A : Type) : Type := W * list event -> outcome A * (W * list event).

Definition ret {A} (a : A) : M A := fun s => (Done a, s).

Definition bind {A B} (m : M A) (k : A -> M B) : M B :=
  fun s =>
    match m s with
    | (Done a, s') => k a s'
    | (Raised e, s') => (Raised e, s')
    | (OutOfFuel, s') => (OutOfFuel, s')
    end.

Definition throw {A} (e : thrown) : M A := fun s => (Raised e, s).

Definition out_of_fuel {A} : M A := fun s => (OutOfFuel, s).

(** [try { body } catch (error) { handler error }] *)
Definition try_catch {A} (body : M A) (handler : thrown -> M A) : M A :=
  fun s =>
    match body s with
    | (Raised e, s') => handler e s'
    | r => r
    end.

(** [await call], recorded in the log. *)
Definition await {A} (call : W -> reply A * W) (record : reply A -> event) : M A :=
  fun s =>
    let (r, w') := call (fst s) in
    (match r with Ok a => Done a | Fail e => Raised e end,
     (w', snd s ++ [record r])).

(** Reading the client handle is synchronous and leaves no trace. *)
Definition read {A} (f : W -> A) : M A := fun s => (Done (f (fst s)), s).
End Monad.

Notation "x <- m ;; k" := (bind m (fun x => k))
  (at level 61, m at next level, right associativity).

(** ** unfollow.ts *)

Definition default_profile_image : string :=
  "https://abs.twimg.com/sticky/default_profile_images/default_profile_normal.png".

Definition client_not_initialized : string :=
  "V2 client is not initialized. Please login with API credentials first.".

Definition no_current_user : string :=
  "Could not get current user ID. Please ensure you are logged in.".

Definition user_fields_of_followers : list string :=
  ["profile_image_url"; "description"; "verified"; "protected"; "public_metrics"]%string.

(** The object literal that both [unfollowUser] (lines 40-52) and the [map]
    callback of [getMyFollowers] (lines 109-121) build from an API user. *)
Definition toTwitterUser (user : UserV2.t) : TwitterUser.t :=
  {| TwitterUser.id := UserV2.id user;
     TwitterUser.screenName := UserV2.username user;
     TwitterUser.name := UserV2.name user;
     TwitterUser.profileImageUrl :=
       or_else (UserV2.profile_image_url user) default_profile_image;
     TwitterUser.description := UserV2.description user;
     TwitterUser.verified := UserV2.verified user;
     TwitterUser.protected := UserV2.protected user;
     TwitterUser.followersCount :=
       match UserV2.public_metrics user with
       | Some m => followers_count m
       | None => None
       end;
     TwitterUser.friendsCount :=
       match UserV2.public_metrics user with
       | Some m => following_count m
       | None => None
       end |}.

(** [currentUser?.userId], as the truthy string it is or nothing. *)
Definition current_user_id (currentUser : option Profile) : option string :=
  match currentUser with
  | Some p => if truthy (userId p) then userId p else None
  | None => None
  end.

(** The [catch] clause shared by the three functions: an [Error] is replaced
    by a new one with a prefixed message, anything else is thrown again. *)
Definition rethrow {W A} (prefix : string) (error : thrown) : @M W A :=
  match error with
  | ErrorObj message => throw (ErrorObj (prefix +++ message))
  | NonError _ => throw error
  end.

Definition unfollow_prefix (username : string) : string :=
  "Failed to unfollow user " +++ username +++ ": ".

Definition followers_prefix : string := "Failed to get followers: ".

Definition following_prefix (username : string) : string :=
  "Failed to check if " +++ username +++ " follows you: ".

Definition not_found (username : string) : string :=
  "User " +++ username +++ " not found".

Section Unfollow.
Context {W : Type}.

(** The [try] block of [unfollowUser]. *)
Definition unfollowUser_try (username : string) (auth : TwitterAuth W)
    (v2client : V2.t W) : M TwitterUser.t :=
  user <- await (V2.userByUsername v2client username) (CallUserByUsername username) ;;
  match user_data user with
  | None => throw (ErrorObj (not_found username))
  | Some user_data =>
      currentUser <- await (me auth) CallMe ;;
      match current_user_id currentUser with
      | None => throw (ErrorObj no_current_user)
      | Some currentUserId =>
          _ <- await (V2.unfollow v2client currentUserId (UserV2.id user_data))
                     (CallUnfollow currentUserId (UserV2.id user_data)) ;;
          ret (toTwitterUser user_data)
      end
  end.

Definition unfollowUser (username : string) (auth : TwitterAuth W) : M TwitterUser.t :=
  v2client <- read (getV2Client auth) ;;
  match v2client with
  | None => throw (ErrorObj client_not_initialized)
  | Some v2client =>
      try_catch (unfollowUser_try username auth v2client)
                (rethrow (unfollow_prefix username))
  end.

(** The request of one iteration of the loop of [getMyFollowers]. *)
Definition followers_params (maxResults : Z) (followers : list TwitterUser.t)
    (paginationToken : option string) : TimelineParams :=
  {| max_results := Z.min 100 (maxResults - Z.of_nat (length followers));
     pagination_token := paginationToken;
     user_fields := user_fields_of_followers |}.

(** The [do ... while (paginationToken)] loop, lines 91-130.  A [break]
    and the end of the loop both continue at [return followers]. *)
Fixpoint followers_loop (fuel : nat) (v2client : V2.t W) (currentUserId : string)
    (maxResults : Z) (followers : list TwitterUser.t)
    (paginationToken : option string) : M (list TwitterUser.t) :=
  match fuel with
  | O => out_of_fuel
  | S fuel' =>
      let params := followers_params maxResults followers paginationToken in
      response <- await (V2.followers v2client currentUserId params)
                        (CallFollowers currentUserId params) ;;
      match data response with
      | None => ret followers
      | Some users =>
          let newFollowers := map toTwitterUser users in
          let followers' := followers ++ newFollowers in
          let paginationToken' := next_token (meta response) in
          if Z.of_nat (length followers') >=? maxResults then ret followers'
          else if truthy paginationToken' then
            followers_loop fuel' v2client currentUserId maxResults
                           followers' paginationToken'
          else ret followers'
      end
  end.

(** The [try] block of [getMyFollowers]. *)
Definition getMyFollowers_try (fuel : nat) (auth : TwitterAuth W)
    (v2client : V2.t W) (maxResults : Z) : M (list TwitterUser.t) :=
  currentUser <- await (me auth) CallMe ;;
  match current_user_id currentUser with
  | None => throw (ErrorObj no_current_user)
  | Some currentUserId =>
      followers_loop fuel v2client currentUserId maxResults [] None
  end.

Definition getMyFollowers (fuel : nat) (auth : TwitterAuth W) (maxResults : Z)
    : M (list TwitterUser.t) :=
  v2client <- read (getV2Client auth) ;;
  match v2client with
  | None => throw (ErrorObj client_not_initialized)
  | Some v2client =>
      try_catch (getMyFollowers_try fuel auth v2client maxResults)
                (rethrow followers_prefix)
  end.

(** [maxResults = 100] when the argument is left out. *)
Definition getMyFollowers_default (fuel : nat) (auth : TwitterAuth W)
    : M (list TwitterUser.t) :=
  getMyFollowers fuel auth 100.

Definition following_params : TimelineParams :=
  {| max_results := 1; pagination_token := None; user_fields := ["id"%string] |}.

(** [relationship.data?.some((following) => following.id === id) ?? false] *)
Definition some_following (relationship : UserTimeline) (currentUserId : string) : bool :=
  match data relationship with
  | Some users =>
      existsb (fun following => String.eqb (UserV2.id following) currentUserId) users
  | None => false
  end.

(** The [try] block of [isFollowingMe]. *)
Definition isFollowingMe_try (username : string) (auth : TwitterAuth W)
    (v2client : V2.t W) : M bool :=
  user <- await (V2.userByUsername v2client username) (CallUserByUsername username) ;;
  match user_data user with
  | None => throw (ErrorObj (not_found username))
  | Some user_data =>
      currentUser <- await (me auth) CallMe ;;
      match current_user_id currentUser with
      | None => throw (ErrorObj no_current_user)
      | Some currentUserId =>
          relationship <- await (V2.following v2client (UserV2.id user_data) following_params)
                                (CallFollowing (UserV2.id user_data) following_params) ;;
          ret (some_following relationship currentUserId)
      end
  end.

Definition isFollowingMe (username : string) (auth : TwitterAuth W) : M bool :=
  v2client <- read (getV2Client auth) ;;
  match v2client with
  | None => throw (ErrorObj client_not_initialized)
  | Some v2client =>
      try_catch (isFollowingMe_try username auth v2client)
                (rethrow (following_prefix username))
  end.
End Unfollow.

(** ** Running a function, and reading its log *)

Definition run {W A} (m : @M W A) (w : W) : outcome A * (W * list event) := m (w, []).

Definition result_of {W A} (r : outcome A * (W * list event)) : outcome A := fst r.

Definition log_of {W A} (r : outcome A * (W * list event)) : list event := snd (snd r).

(** The entries that one logged call delivered to the followers loop. *)
Definition entries_of (ev : event) : list UserV2.t :=
  match ev with
  | CallFollowers _ _ (Ok response) =>
      match data response with
      | Some users => users
      | None => []
      end
  | _ => []
  end.

(** All the entries delivered by the followers requests of a log, in order. *)
Definition received (log : list event) : list UserV2.t := flat_map entries_of log.

Definition is_followers_call (ev : event) : bool :=
  match ev with
  | CallFollowers _ _ _ => true
  | _ => false
  end.

(** The number of page requests in a log. *)
Definition page_requests (log : list event) : nat :=
  length (filter is_followers_call log).

(** ** The runs of the followers loop

    [loop_run followers token trace out] describes one execution of the loop
    entered with accumulator [followers] and cursor [token]: the requests it
    logs and how it ends.  Each constructor is one way through the loop body. *)
Section LoopRuns.
Context {W : Type} (v2client : V2.t W) (currentUserId : string) (maxResults : Z).

(** A reply that the client gave to a followers request in some world. *)
Definition served (params : TimelineParams) (r : reply UserTimeline) : Prop :=
  exists w w', V2.followers v2client currentUserId params w = (r, w').

Definition request (followers : list TwitterUser.t) (token : option string)
    (r : reply UserTimeline) : event :=
  CallFollowers currentUserId (followers_params maxResults followers token) r.

Inductive loop_run :
  list TwitterUser.t -> option string -> list event ->
  outcome (list TwitterUser.t) -> Prop :=
| run_out_of_fuel followers token :
    loop_run followers token [] OutOfFuel
| run_failed followers token e :
    served (followers_params maxResults followers token) (Fail e) ->
    loop_run followers token [request followers token (Fail e)] (Raised e)
| run_no_data followers token response :
    served (followers_params maxResults followers token) (Ok response) ->
    data response = None ->
    loop_run followers token [request followers token (Ok response)] (Done followers)
| run_reached followers token response users :
    served (followers_params maxResults followers token) (Ok response) ->
    data response = Some users ->
    maxResults <= Z.of_nat (length (followers ++ map toTwitterUser users)) ->
    loop_run followers token [request followers token (Ok response)]
             (Done (followers ++ map toTwitterUser users))
| run_no_cursor followers token response users :
    served (followers_params maxResults followers token) (Ok response) ->
    data response = Some users ->
    Z.of_nat (length (followers ++ map toTwitterUser users)) < maxResults ->
    truthy (next_token (meta response)) = false ->
    loop_run followers token [request followers token (Ok response)]
             (Done (followers ++ map toTwitterUser users))
| run_again followers token response users trace out :
    served (followers_params maxResults followers token) (Ok response) ->
    data response = Some users ->
    Z.of_nat (length (followers ++ map toTwitterUser users)) < maxResults ->
    truthy (next_token (meta response)) = true ->
    loop_run (followers ++ map toTwitterUser users) (next_token (meta response))
             trace out ->
    loop_run followers token (request followers token (Ok response) :: trace) out.

End LoopRuns.

(** ** The runs of the three try blocks

    One constructor for each way through a try block: the calls it logs and
    the outcome it has before the catch clause. *)
Section TryRuns.
Context (username : string).

Inductive unfollow_run : list event -> outcome TwitterUser.t -> Prop :=
| unfollow_lookup_failed e :
    unfollow_run [CallUserByUsername username (Fail e)] (Raised e)
| unfollow_not_found user :
    user_data user = None ->
    unfollow_run [CallUserByUsername username (Ok user)]
                 (Raised (ErrorObj (not_found username)))
| unfollow_me_failed user target e :
    user_data user = Some target ->
    unfollow_run [CallUserByUsername username (Ok user); CallMe (Fail e)] (Raised e)
| unfollow_no_id user target currentUser :
    user_data user = Some target ->
    current_user_id currentUser = None ->
    unfollow_run [CallUserByUsername username (Ok user); CallMe (Ok currentUser)]
                 (Raised (ErrorObj no_current_user))
| unfollow_call_failed user target currentUser currentUserId e :
    user_data user = Some target ->
    current_user_id currentUser = Some currentUserId ->
    unfollow_run [CallUserByUsername username (Ok user); CallMe (Ok currentUser);
                  CallUnfollow currentUserId (UserV2.id target) (Fail e)]
                 (Raised e)
| unfollow_done user target currentUser currentUserId :
    user_data user = Some target ->
    current_user_id currentUser = Some currentUserId ->
    unfollow_run [CallUserByUsername username (Ok user); CallMe (Ok currentUser);
                  CallUnfollow currentUserId (UserV2.id target) (Ok tt)]
                 (Done (toTwitterUser target)).

Inductive following_run : list event -> outcome bool -> Prop :=
| following_lookup_failed e :
    following_run [CallUserByUsername username (Fail e)] (Raised e)
| following_not_found user :
    user_data user = None ->
    following_run [CallUserByUsername username (Ok user)]
                  (Raised (ErrorObj (not_found username)))
| following_me_failed user target e :
    user_data user = Some target ->
    following_run [CallUserByUsername username (Ok user); CallMe (Fail e)] (Raised e)
| following_no_id user target currentUser :
    user_data user = Some target ->
    current_user_id currentUser = None ->
    following_run [CallUserByUsername username (Ok user); CallMe (Ok currentUser)]
                  (Raised (ErrorObj no_current_user))
| following_call_failed user target currentUser currentUserId e :
    user_data user = Some target ->
    current_user_id currentUser = Some currentUserId ->
    following_run [CallUserByUsername username (Ok user); CallMe (Ok currentUser);
                   CallFollowing (UserV2.id target) following_params (Fail e)]
                  (Raised e)
| following_done user target currentUser currentUserId relationship :
    user_data user = Some target ->
    current_user_id currentUser = Some currentUserId ->
    following_run [CallUserByUsername username (Ok user); CallMe (Ok currentUser);
                   CallFollowing (UserV2.id target) following_params (Ok relationship)]
                  (Done (some_following relationship currentUserId)).
End TryRuns.

Section FollowersRun.
Context {W : Type} (v2client : V2.t W) (maxResults : Z).

Inductive followers_run : list event -> outcome (list TwitterUser.t) -> Prop :=
| followers_me_failed e :
    followers_run [CallMe (Fail e)] (Raised e)
| followers_no_id currentUser :
    current_user_id currentUser = None ->
    followers_run [CallMe (Ok currentUser)] (Raised (ErrorObj no_current_user))
| followers_listed currentUser currentUserId trace out :
    current_user_id currentUser = Some currentUserId ->
    loop_run v2client currentUserId maxResults [] None trace out ->
    followers_run (CallMe (Ok currentUser) :: trace) out.
End FollowersRun.

(** ** The catch clause, and failures on the log *)

(** What the catch clause throws for a caught [error]. *)
Definition wrapped (prefix : string) (error : thrown) : thrown :=
  match error with
  | ErrorObj message => ErrorObj (prefix +++ message)
  | NonError _ => error
  end.

Definition caught {A} (prefix : string) (out : outcome A) : outcome A :=
  match out with
  | Raised e => Raised (wrapped prefix e)
  | _ => out
  end.

(** The error that a logged call answered with, if it did. *)
Definition failure_of (ev : event) : option thrown :=
  match ev with
  | CallUserByUsername _ (Fail e) => Some e
  | CallMe (Fail e) => Some e
  | CallUnfollow _ _ (Fail e) => Some e
  | CallFollowers _ _ (Fail e) => Some e
  | CallFollowing _ _ (Fail e) => Some e
  | _ => None
  end.

(** The error that the try block meets right after a logged call: the one
    the call threw or, for a lookup without data and for a profile without
    a user id, the one the function throws itself. *)
Definition raised_at (username : string) (ev : event) : option thrown :=
  match ev with
  | CallUserByUsername _ (Ok user) =>
      match user_data user with
      | None => Some (ErrorObj (not_found username))
      | Some _ => None
      end
  | CallMe (Ok currentUser) =>
      match current_user_id currentUser with
      | None => Some (ErrorObj no_current_user)
      | Some _ => None
      end
  | _ => failure_of ev
  end.

(** The first error met ends the trace and is the outcome, and an outcome
    that is an error was met at the last call. *)
Definition first_failure {A} (username : string) (trace : list event)
    (out : outcome A) : Prop :=
  (forall pre ev post e,
     trace = pre ++ ev :: post -> raised_at username ev = Some e ->
     post = [] /\ out = Raised e) /\
  (forall e,
     out = Raised e ->
     exists pre ev, trace = pre ++ [ev] /\ raised_at username ev = Some e).

(** The same, seen through the catch clause. *)
Definition error_policy {W A} (username prefix : string)
    (r : outcome A * (W * list event)) : Prop :=
  (forall pre ev post e,
     log_of r = pre ++ ev :: post -> raised_at username ev = Some e ->
     post = [] /\ result_of r = Raised (wrapped prefix e)) /\
  (forall x,
     result_of r = Raised x ->
     exists pre ev e,
       log_of r = pre ++ [ev] /\ raised_at username ev = Some e /\
       x = wrapped prefix e).

(** ** Properties of collaborators and of results *)

(** A server that never puts more entries on a page than the request asked for. *)
Definition honours_page_size {W} (v2client : V2.t W) : Prop :=
  forall user params w response users,
    fst (V2.followers v2client user params w) = Ok response ->
    data response = Some users ->
    Z.of_nat (length users) <= max_results params.

(** A server whose every followers page has an empty list of entries and a
    cursor. *)
Definition always_empty_with_cursor {W} (v2client : V2.t W) : Prop :=
  forall user params w,
    exists response w',
      V2.followers v2client user params w = (Ok response, w') /\
      data response = Some [] /\
      truthy (next_token (meta response)) = true.

(** The placeholder rule between an API user and the user made of it. *)
Definition image_rule (source : UserV2.t) (user : TwitterUser.t) : Prop :=
  (UserV2.profile_image_url source = None \/
   UserV2.profile_image_url source = Some EmptyString ->
   TwitterUser.profileImageUrl user = default_profile_image) /\
  (forall url,
     UserV2.profile_image_url source = Some url -> url <> EmptyString ->
     TwitterUser.profileImageUrl user = url) /\
  TwitterUser.profileImageUrl user <> EmptyString.

(** ** A scripted collaborator

    A server that answers the n-th followers request with the n-th reply of
    a fixed list ([exhausted] once the list is used up) and every other call
    with a fixed reply.  Its world is the number of followers requests
    served so far. *)
Module Script.
Record t : Type := mk {
  logged_in : bool;
  lookup : reply UserV2Result;
  profile : reply (option Profile);
  unfollowed : reply unit;
  pages : list (reply UserTimeline);
  exhausted : reply UserTimeline;
  relationship : reply UserTimeline
}.

Definition client (s : t) : V2.t nat :=
  V2.mk (fun _ w => (lookup s, w))
        (fun _ _ w => (unfollowed s, w))
        (fun _ _ w => (nth w (pages s) (exhausted s), S w))
        (fun _ _ w => (relationship s, w)).

Definition auth (s : t) : TwitterAuth nat :=
  {| getV2Client := fun _ => if logged_in s then Some (client s) else None;
     me := fun w => (profile s, w) |}.

Definition user (id : string) (image : option string) : UserV2.t :=
  UserV2.mk id id id image None None None None.

Definition page (users : list UserV2.t) (next : option string) : reply UserTimeline :=
  Ok {| data := Some users; meta := {| next_token := next |} |}.

Definition no_data (next : option string) : reply UserTimeline :=
  Ok {| data := None; meta := {| next_token := next |} |}.

Definition account (id : string) : reply (option Profile) :=
  Ok (Some {| userId := Some id |}).

Definition found (u : UserV2.t) : reply UserV2Result :=
  Ok {| user_data := Some u |}.

(** A logged-in account ["me"] looking at user ["bob"]. *)
Definition base : t :=
  {| logged_in := true;
     lookup := found (user "bob" None);
     profile := account "me";
     unfollowed := Ok tt;
     pages := [];
     exhausted := no_data None;
     relationship := page [] None |}.

Definition with_pages (ps : list (reply UserTimeline)) (rest : reply UserTimeline) : t :=
  {| logged_in := true;
     lookup := lookup base;
     profile := profile base;
     unfollowed := unfollowed base;
     pages := ps;
     exhausted := rest;
     relationship := relationship base |}.
End Script.

(** A server that pages through a fixed list of followers the way the API
    does: it rejects a page size below 1, and otherwise hands out the next
    [max_results] followers with a cursor while some are left.  Its world is
    the list of followers not handed out yet. *)
Module Paged.
Definition followers (_ : string) (params : TimelineParams) (rest : list UserV2.t)
    : reply UserTimeline * list UserV2.t :=
  if max_results params <? 1 then
    (Fail (ErrorObj "max_results must be at least 1"), rest)
  else
    let n := Z.to_nat (max_results params) in
    (Ok {| data := Some (firstn n rest);
           meta := {| next_token :=
                        match skipn n rest with
                        | [] => None
                        | _ :: _ => Some "next"%string
                        end |} |},
     skipn n rest).

Definition client : V2.t (list UserV2.t) :=
  V2.mk (fun _ w => (Script.found (Script.user "bob" None), w))
        (fun _ _ w => (Ok tt, w))
        followers
        (fun _ _ w => (Script.page [] None, w)).

Definition auth : TwitterAuth (list UserV2.t) :=
  {| getV2Client := fun _ => Some client;
     me := fun w => (Script.account "me", w) |}.
End Paged.

Definition alice : UserV2.t := Script.user "alice" None.
Definition carol : UserV2.t := Script.user "carol" (Some "https://img.example/carol.png"%string).
Definition dave : UserV2.t := Script.user "dave" (Some ""%string).

(** One page of three followers, whatever was asked for. *)
Definition three_at_once : Script.t :=
  Script.with_pages [Script.page [alice; carol; dave] (Some "t1"%string)]
                    (Script.page [alice] None).

(** A page, then a response without data that still carries a cursor, then
    more followers. *)
Definition gap_in_the_middle : Script.t :=
  Script.with_pages [Script.page [alice] (Some "t1"%string);
                     Script.no_data (Some "t2"%string);
                     Script.page [carol] None]
                    (Script.no_data None).

Definition logged_out : Script.t :=
  {| Script.logged_in := false;
     Script.lookup := Script.lookup Script.base;
     Script.profile := Script.profile Script.base;
     Script.unfollowed := Script.unfollowed Script.base;
     Script.pages := [Script.page [alice] None];
     Script.exhausted := Script.no_data None;
     Script.relationship := Script.relationship Script.base |}.

(** Collaborators that fail at a chosen step. *)
Definition unfollow_rejected : Script.t :=
  {| Script.logged_in := true;
     Script.lookup := Script.lookup Script.base;
     Script.profile := Script.profile Script.base;
     Script.unfollowed := Fail (ErrorObj "Too Many Requests");
     Script.pages := [];
     Script.exhausted := Script.no_data None;
     Script.relationship := Script.relationship Script.base |}.

Definition second_page_lost : Script.t :=
  Script.with_pages [Script.page [alice] (Some "t1"%string); Fail (NonError "ECONNRESET")]
                    (Script.page [carol] None).

Definition nobody_found : Script.t :=
  {| Script.logged_in := true;
     Script.lookup := Ok {| user_data := None |};
     Script.profile := Script.profile Script.base;
     Script.unfollowed := Ok tt;
     Script.pages := [];
     Script.exhausted := Script.no_data None;
     Script.relationship := Script.relationship Script.base |}.

Definition followed_back : Script.t :=
  {| Script.logged_in := true;
     Script.lookup := Script.lookup Script.base;
     Script.profile := Script.profile Script.base;
     Script.unfollowed := Ok tt;
     Script.pages := [];
     Script.exhausted := Script.no_data None;
     Script.relationship := Script.page [Script.user "me" None] None |}.

(** Empty pages with a cursor, for ever. *)
Definition empty_forever : Script.t :=
  Script.with_pages [] (Script.page [] (Some "again"%string)).

(** ** Further vocabulary: endpoints, identities, servers *)

(** The endpoint that a logged call went to. *)
Inductive endpoint : Type :=
| UserByUsername
| Me
| Unfollow
| Followers
| Following.

Definition endpoint_of (ev : event) : endpoint :=
  match ev with
  | CallUserByUsername _ _ => UserByUsername
  | CallMe _ => Me
  | CallUnfollow _ _ _ => Unfollow
  | CallFollowers _ _ _ => Followers
  | CallFollowing _ _ _ => Following
  end.

(** What [auth.me()] can resolve to without giving a usable id: nothing, a
    profile without [userId], a profile whose [userId] is the empty string. *)
Definition unresolved (currentUser : option Profile) : Prop :=
  currentUser = None \/
  exists p, currentUser = Some p /\ (userId p = None \/ userId p = Some EmptyString).



(** An account whose profile has an empty [userId]. *)
Definition blank_identity : Script.t :=
  {| Script.logged_in := true;
     Script.lookup := Script.lookup Script.base;
     Script.profile := Ok (Some {| userId := Some EmptyString |});
     Script.unfollowed := Ok tt;
     Script.pages := [Script.page [alice] None];
     Script.exhausted := Script.no_data None;
     Script.relationship := Script.relationship Script.base |}.

(** A first page whose cursor is the empty string, with more behind it. *)
Definition blank_cursor : Script.t :=
  Script.with_pages [Script.page [alice] (Some EmptyString); Script.page [carol] None]
                    (Script.no_data None).

(** Two pages joined by a cursor. *)
Definition two_pages : Script.t :=
  Script.with_pages [Script.page [alice; carol] (Some "t1"%string);
                     Script.page [dave] None]
                    (Script.no_data None).

(** * Proofs *)

(** ** Tactics for explicit traces *)

(** Splitting a short explicit trace at one of its events. *)
Ltac split_trace :=
  match goal with
  | H : _ :: _ = ?pre ++ _ :: _ |- _ =>
      (destruct pre as [|? [|? [|? [|? pre]]]]); simpl in H;
      try discriminate H; inversion H; subst; clear H
  end.

(** Evaluating [raised_at] at an event whose reply is known. *)
Ltac settle F :=
  simpl in F;
  repeat match goal with
         | H : _ = Some _ |- _ =>
             tryif constr_eq H F then fail else (progress rewrite H in F)
         | H : _ = None |- _ =>
             tryif constr_eq H F then fail else (progress rewrite H in F)
         end;
  try discriminate F; inversion F; subst; auto.

(** The last event of an explicit trace. *)
Ltac last_event :=
  match goal with
  | |- exists pre ev, ?t = pre ++ [ev] /\ _ =>
      exists (removelast t); eexists; split; [simpl; reflexivity|]
  end.

Example three_followers_on_two_pages :
  let a := Script.user "a" None in
  let b := Script.user "b" (Some "http://b"%string) in
  let c := Script.user "c" (Some ""%string) in
  let s := Script.with_pages [Script.page [a; b] (Some "t1"%string); Script.page [c] None]
                             (Script.no_data None) in
  let r := run (getMyFollowers 10 (Script.auth s) 1000) 0%nat in
  result_of r = Done (map toTwitterUser [a; b; c]) /\ page_requests (log_of r) = 2%nat.
Proof. split; reflexivity. Qed.

(** ** The catch clause *)

Lemma try_catch_rethrow {W A} (prefix : string) (body : @M W A) (s : W * list event) :
  try_catch body (rethrow prefix) s = (caught prefix (fst (body s)), snd (body s)).
Proof.
  unfold try_catch. destruct (body s) as [[a|e|] s']; simpl; try reflexivity.
  destruct e; reflexivity.
Qed.

Lemma caught_error_policy {W A} (username prefix : string)
    (body : outcome A * (W * list event)) :
  first_failure username (log_of body) (result_of body) ->
  error_policy username prefix (caught prefix (result_of body), snd body).
Proof.
  intros [H1 H2]. split.
  - intros pre ev post e Hlog F. unfold log_of, result_of in *; simpl in *.
    destruct (H1 pre ev post e Hlog F) as [Hp Ho]. rewrite Ho. auto.
  - intros x Hx. unfold log_of, result_of in *; simpl in *.
    destruct (fst body) as [a|e|]; simpl in Hx; try discriminate Hx.
    inversion Hx; subst. destruct (H2 e eq_refl) as (pre & ev & Hl & F).
    exists pre, ev, e. auto.
Qed.

(** ** The runs of the three try blocks *)
Section Runs.
Context {W : Type} (auth : TwitterAuth W) (v2client : V2.t W) (username : string).

Lemma unfollowUser_try_run (w : W) :
  unfollow_run username (log_of (run (unfollowUser_try username auth v2client) w))
               (result_of (run (unfollowUser_try username auth v2client) w)).
Proof.
  unfold log_of, result_of, run, unfollowUser_try, bind, await; simpl.
  destruct (V2.userByUsername v2client username w) as [[user|e] w1]; simpl;
    [|constructor].
  destruct (user_data user) as [target|] eqn:D; simpl;
    [|constructor; assumption].
  destruct (me auth w1) as [[currentUser|e] w2]; simpl;
    [|econstructor; eassumption].
  destruct (current_user_id currentUser) as [currentUserId|] eqn:C; simpl;
    [|econstructor; eassumption].
  destruct (V2.unfollow v2client currentUserId (UserV2.id target) w2)
    as [[[]|e] w3]; simpl; econstructor; eassumption.
Qed.

Lemma unfollow_run_first_failure trace out :
  unfollow_run username trace out -> first_failure username trace out.
Proof.
  intros R. split.
  - intros pre ev post e H F. subst trace.
    inversion R; subst; split_trace; settle F.
  - intros e E. subst out.
    inversion R; subst; last_event; simpl;
      repeat match goal with H : _ = _ |- _ => rewrite H end; reflexivity.
Qed.

Lemma isFollowingMe_try_run (w : W) :
  following_run username (log_of (run (isFollowingMe_try username auth v2client) w))
                (result_of (run (isFollowingMe_try username auth v2client) w)).
Proof.
  unfold log_of, result_of, run, isFollowingMe_try, bind, await; simpl.
  destruct (V2.userByUsername v2client username w) as [[user|e] w1]; simpl;
    [|constructor].
  destruct (user_data user) as [target|] eqn:D; simpl;
    [|constructor; assumption].
  destruct (me auth w1) as [[currentUser|e] w2]; simpl;
    [|econstructor; eassumption].
  destruct (current_user_id currentUser) as [currentUserId|] eqn:C; simpl;
    [|econstructor; eassumption].
  destruct (V2.following v2client (UserV2.id target) following_params w2)
    as [[relationship|e] w3]; simpl; econstructor; eassumption.
Qed.

Lemma following_run_first_failure trace out :
  following_run username trace out -> first_failure username trace out.
Proof.
  intros R. split.
  - intros pre ev post e H F. subst trace.
    inversion R; subst; split_trace; settle F.
  - intros e E. subst out.
    inversion R; subst; last_event; simpl;
      repeat match goal with H : _ = _ |- _ => rewrite H end; reflexivity.
Qed.
End Runs.

Section LoopFacts.
Context {W : Type} (v2client : V2.t W) (currentUserId : string) (maxResults : Z).

Local Abbreviation loop_run := (loop_run v2client currentUserId maxResults).

(** Every execution of [followers_loop] is such a run, and extends the log
    by the trace of that run. *)
Lemma followers_loop_run (fuel : nat) :
  forall followers token w log,
    exists trace,
      log_of (followers_loop fuel v2client currentUserId maxResults
                             followers token (w, log)) = log ++ trace /\
      loop_run followers token trace
        (result_of (followers_loop fuel v2client currentUserId maxResults
                                   followers token (w, log))).
Proof.
  unfold log_of, result_of.
  induction fuel as [|fuel IH]; intros followers token w log; simpl.
  - exists []. rewrite app_nil_r. split; [reflexivity | constructor].
  - unfold bind, await; simpl.
    destruct (V2.followers v2client currentUserId
                (followers_params maxResults followers token) w) as [r w'] eqn:E.
    assert (Hs : served v2client currentUserId (followers_params maxResults followers token) r)
      by (exists w, w'; exact E).
    destruct r as [response|e]; simpl.
    + destruct (data response) as [users|] eqn:D.
      * destruct (Z.of_nat (length (followers ++ map toTwitterUser users))
                    >=? maxResults) eqn:G.
        -- eexists; split; [reflexivity|].
           apply run_reached; auto. apply Z.geb_le in G. lia.
        -- assert (Z.of_nat (length (followers ++ map toTwitterUser users))
                     < maxResults)
             by (rewrite Z.geb_leb in G; apply Z.leb_gt in G; exact G).
           destruct (truthy (next_token (meta response))) eqn:T.
           ++ destruct (IH (followers ++ map toTwitterUser users)
                           (next_token (meta response)) w'
                           (log ++ [request currentUserId maxResults followers token (Ok response)]))
                as [trace [Hlog Hrun]].
              exists (request currentUserId maxResults followers token (Ok response) :: trace). split.
              ** unfold request in *. rewrite Hlog, <- app_assoc. reflexivity.
              ** eapply run_again; eauto.
           ++ eexists; split; [reflexivity|]. eapply run_no_cursor; eauto.
      * eexists; split; [reflexivity|]. apply run_no_data; auto.
    + eexists; split; [reflexivity|]. apply run_failed; auto.
Qed.

Lemma received_app (l1 l2 : list event) : received (l1 ++ l2) = received l1 ++ received l2.
Proof. unfold received. apply flat_map_app. Qed.

(** What follows any point of a run is itself a run of the loop, entered
    with everything received up to that point. *)
Lemma loop_run_suffix (pre : list event) :
  forall followers token ev post out,
    loop_run followers token (pre ++ ev :: post) out ->
    exists token',
      loop_run (followers ++ map toTwitterUser (received pre)) token' (ev :: post) out.
Proof.
  induction pre as [|first pre IH]; intros followers token ev post out R; simpl in *.
  - exists token. rewrite app_nil_r. exact R.
  - inversion R; subst; try (destruct pre; discriminate).
    match goal with H : loop_run _ _ (pre ++ _) _ |- _ => apply IH in H; destruct H as [token' H] end.
    exists token'. unfold received in *; simpl.
    match goal with D : data _ = Some _ |- _ => rewrite D end.
    rewrite map_app, app_assoc. assumption.
Qed.

Lemma loop_run_first_failure username followers token trace out :
  loop_run followers token trace out -> first_failure username trace out.
Proof.
  intros R. split.
  - intros pre ev post e H F. subst trace.
    apply loop_run_suffix in R. destruct R as [token' R].
    inversion R; subst; simpl in F; try discriminate F.
    inversion F; subst; auto.
  - intros e E. induction R; try discriminate E.
    + inversion E; subst. exists [], (request currentUserId maxResults followers token (Fail e)).
      split; reflexivity.
    + destruct (IHR E) as (pre & ev & Ht & F). subst trace.
      exists (request currentUserId maxResults followers token (Ok response) :: pre), ev.
      split; [reflexivity | exact F].
Qed.

(** A finished run returns the accumulator it started with, followed by
    every entry it received, in the order of arrival. *)
Lemma loop_run_result followers token trace result :
  loop_run followers token trace (Done result) ->
  result = followers ++ map toTwitterUser (received trace).
Proof.
  intros R. remember (Done result) as out eqn:E.
  induction R; try discriminate E; unfold received; simpl;
    try match goal with D : data _ = _ |- _ => rewrite D end;
    simpl; rewrite ?app_nil_r.
  - inversion E; reflexivity.
  - inversion E; reflexivity.
  - inversion E; reflexivity.
  - rewrite (IHR E), map_app, app_assoc. reflexivity.
Qed.

Lemma loop_run_calls followers token trace out :
  loop_run followers token trace out -> forallb is_followers_call trace = true.
Proof. induction 1; simpl; auto. Qed.
End LoopFacts.

Section FollowersRuns.
Context {W : Type} (auth : TwitterAuth W) (v2client : V2.t W) (maxResults : Z).

Lemma getMyFollowers_try_run (fuel : nat) (w : W) :
  followers_run v2client maxResults (log_of (run (getMyFollowers_try fuel auth v2client maxResults) w))
                (result_of (run (getMyFollowers_try fuel auth v2client maxResults) w)).
Proof.
  unfold run, getMyFollowers_try, bind, await; simpl.
  destruct (me auth w) as [[currentUser|e] w1]; simpl; [|constructor].
  destruct (current_user_id currentUser) as [currentUserId|] eqn:C; simpl;
    [|constructor; assumption].
  destruct (followers_loop_run v2client currentUserId maxResults fuel
              [] None w1 [CallMe (Ok currentUser)]) as [trace [Hlog Hrun]].
  rewrite Hlog. simpl. econstructor; eassumption.
Qed.

Lemma followers_run_first_failure username trace out :
  followers_run v2client maxResults trace out -> first_failure username trace out.
Proof.
  intros R. split.
  - intros pre ev post e H F. subst trace.
    inversion R as [e'|currentUser C|currentUser currentUserId rest out' C L]; subst.
    + split_trace. settle F.
    + split_trace. settle F.
    + destruct pre as [|first pre]; simpl in *;
        match goal with H : _ :: _ = _ :: _ |- _ => inversion H; subst end.
      * settle F.
      * eapply (loop_run_first_failure v2client currentUserId maxResults username);
          eauto.
  - intros e E. subst out.
    inversion R as [e'|currentUser C|currentUser currentUserId rest out' C L]; subst.
    + last_event. reflexivity.
    + last_event. simpl. rewrite C. reflexivity.
    + destruct (loop_run_first_failure v2client currentUserId maxResults username
                  _ _ _ _ L) as [_ H2].
      destruct (H2 e eq_refl) as (pre & ev & Ht & F). subst rest.
      exists (CallMe (Ok currentUser) :: pre), ev. split; [reflexivity | exact F].
Qed.
End FollowersRuns.

(** ** With a client handle, each function is its try block under the catch clause *)
Section LoggedIn.
Context {W : Type} (auth : TwitterAuth W) (v2client : V2.t W) (w : W).
Hypothesis logged_in : getV2Client auth w = Some v2client.

Lemma unfollowUser_logged_in (username : string) :
  run (unfollowUser username auth) w =
  (caught (unfollow_prefix username)
          (result_of (run (unfollowUser_try username auth v2client) w)),
   snd (run (unfollowUser_try username auth v2client) w)).
Proof.
  unfold run, unfollowUser, bind, read; simpl. rewrite logged_in.
  apply try_catch_rethrow.
Qed.

Lemma getMyFollowers_logged_in (fuel : nat) (maxResults : Z) :
  run (getMyFollowers fuel auth maxResults) w =
  (caught followers_prefix
          (result_of (run (getMyFollowers_try fuel auth v2client maxResults) w)),
   snd (run (getMyFollowers_try fuel auth v2client maxResults) w)).
Proof.
  unfold run, getMyFollowers, bind, read; simpl. rewrite logged_in.
  apply try_catch_rethrow.
Qed.

Lemma isFollowingMe_logged_in (username : string) :
  run (isFollowingMe username auth) w =
  (caught (following_prefix username)
          (result_of (run (isFollowingMe_try username auth v2client) w)),
   snd (run (isFollowingMe_try username auth v2client) w)).
Proof.
  unfold run, isFollowingMe, bind, read; simpl. rewrite logged_in.
  apply try_catch_rethrow.
Qed.
End LoggedIn.

(** Without one, nothing is called. *)
Lemma logged_out_log {W A} (w : W) (m : option (V2.t W) -> @M W A) (auth : TwitterAuth W) e :
  getV2Client auth w = None ->
  m None = throw e ->
  run (v2client <- read (getV2Client auth) ;; m v2client) w = (Raised e, (w, [])).
Proof.
  intros H Hm. unfold run, bind, read; simpl. rewrite H, Hm. reflexivity.
Qed.

(** ** getMyFollowers: what holds at each page request *)

(** At any followers request of the log of [getMyFollowers], the rest of the
    execution is a run of the loop whose accumulator holds everything that
    was received before. *)
Lemma getMyFollowers_at_request {W} (fuel : nat) (auth : TwitterAuth W) (maxResults : Z)
    (w : W) pre user params r post :
  log_of (run (getMyFollowers fuel auth maxResults) w)
    = pre ++ CallFollowers user params r :: post ->
  exists (v2client : V2.t W) currentUserId token out,
    loop_run v2client currentUserId maxResults
             (map toTwitterUser (received pre)) token
             (CallFollowers user params r :: post) out /\
    result_of (run (getMyFollowers fuel auth maxResults) w) = caught followers_prefix out.
Proof.
  intros Hlog.
  destruct (getV2Client auth w) as [v2client|] eqn:Hc.
  - rewrite (getMyFollowers_logged_in auth v2client w Hc) in *.
    unfold log_of in Hlog; simpl in Hlog. unfold result_of at 1; simpl.
    pose proof (getMyFollowers_try_run auth v2client maxResults fuel w) as R.
    unfold log_of in R. rewrite Hlog in R.
    inversion R as [e He|currentUser C He|currentUser currentUserId trace out C L He];
      subst.
    + split_trace.
    + split_trace.
    + destruct pre as [|first pre]; simpl in He; inversion He; subst.
      apply loop_run_suffix in L. destruct L as [token L].
      exists v2client, currentUserId, token, (result_of (run (getMyFollowers_try fuel auth v2client maxResults) w)).
      split; [exact L | reflexivity].
  - unfold getMyFollowers in Hlog.
    rewrite (logged_out_log w _ auth (ErrorObj client_not_initialized) Hc eq_refl) in Hlog.
    destruct pre; discriminate Hlog.
Qed.

Lemma loop_run_bound {W} (v2client : V2.t W) currentUserId maxResults
    followers token trace out :
  honours_page_size v2client ->
  loop_run v2client currentUserId maxResults followers token trace out ->
  forall result,
    out = Done result ->
    Z.of_nat (length followers) <= Z.max 0 maxResults ->
    Z.of_nat (length result) <= Z.max 0 maxResults.
Proof.
  intros Hon R. induction R; intros result E Hacc; try discriminate E.
  - inversion E; subst; assumption.
  - inversion E; subst.
    destruct H as [w [w' Hs]].
    assert (Hp := Hon currentUserId (followers_params maxResults followers token)
                      w response users).
    rewrite Hs in Hp. specialize (Hp eq_refl H0).
    unfold followers_params in Hp; simpl in Hp.
    rewrite length_app, length_map in *. lia.
  - inversion E; subst. lia.
  - apply IHR; auto. lia.
Qed.

Lemma paged_honours_page_size : honours_page_size Paged.client.
Proof.
  intros user params w response users H D. simpl in H. unfold Paged.followers in H.
  destruct (max_results params <? 1) eqn:L; simpl in H; [discriminate H|].
  inversion H; subst; simpl in D. inversion D; subst.
  apply Z.ltb_ge in L. rewrite length_firstn. lia.
Qed.

(** ** C1 *)

(** C1, as stated, fails: asked for at most two followers, the function
    returns the three that the single page carried. *)
Lemma getMyFollowers_overshoots :
  result_of (run (getMyFollowers 1 (Script.auth three_at_once) 2) 0%nat)
    = Done (map toTwitterUser [alice; carol; dave]) /\
  ~ Z.of_nat (length (map toTwitterUser [alice; carol; dave])) <= 2.
Proof. split; [reflexivity | simpl; lia]. Qed.

(** C1 (amended): when no page of the server carries more entries than the
    [max_results] of its request, the sequence returned by [getMyFollowers]
    has at most [maxResults] elements (none when [maxResults] is negative). *)
Theorem getMyFollowers_length_bound {W} (fuel : nat) (auth : TwitterAuth W)
    (v2client : V2.t W) (maxResults : Z) (w : W) (followers : list TwitterUser.t) :
  getV2Client auth w = Some v2client ->
  honours_page_size v2client ->
  result_of (run (getMyFollowers fuel auth maxResults) w) = Done followers ->
  Z.of_nat (length followers) <= Z.max 0 maxResults.
Proof.
  intros Hc Hon Hres.
  rewrite (getMyFollowers_logged_in auth v2client w Hc) in Hres.
  unfold result_of at 1 in Hres; simpl in Hres.
  pose proof (getMyFollowers_try_run auth v2client maxResults fuel w) as R.
  destruct (result_of (run (getMyFollowers_try fuel auth v2client maxResults) w))
    as [result|e|] eqn:E; simpl in Hres; try discriminate Hres.
  inversion Hres; subst result.
  inversion R as [e He|currentUser C He|currentUser currentUserId trace out C L He].
  eapply loop_run_bound; eauto. simpl. lia.
Qed.

Lemma getMyFollowers_length_bound_witness :
  Z.of_nat (length (map toTwitterUser [alice; carol])) <= Z.max 0 2.
Proof.
  apply (getMyFollowers_length_bound 5 Paged.auth Paged.client 2 [alice; carol; dave]).
  - reflexivity.
  - exact paged_honours_page_size.
  - reflexivity.
Defined.

(** ** C3 *)

(** C3: whenever a page brings the number of accumulated followers to
    [maxResults] or beyond, the request that fetched it is the last one of
    the execution, and the function returns what it has accumulated. *)
Theorem no_request_after_target {W} (fuel : nat) (auth : TwitterAuth W) (maxResults : Z)
    (w : W) pre user params response users post :
  log_of (run (getMyFollowers fuel auth maxResults) w)
    = pre ++ CallFollowers user params (Ok response) :: post ->
  data response = Some users ->
  maxResults <= Z.of_nat (length (received pre ++ users)) ->
  post = [] /\
  result_of (run (getMyFollowers fuel auth maxResults) w)
    = Done (map toTwitterUser (received pre ++ users)).
Proof.
  intros Hlog D G.
  apply getMyFollowers_at_request in Hlog.
  destruct Hlog as (v2client & currentUserId & token & out & R & Hres).
  rewrite Hres. rewrite map_app. rewrite length_app in G.
  inversion R; subst;
    repeat match goal with
           | H : data ?r = Some _, H' : data ?r = _ |- _ =>
               rewrite H in H'; first [discriminate H' | inversion H'; subst; clear H']
           end.
  - split; reflexivity.
  - rewrite length_app, !length_map in *. lia.
  - rewrite length_app, !length_map in *. lia.
Qed.

Lemma no_request_after_target_witness :
  @nil event = [] /\
  result_of (run (getMyFollowers 4 (Script.auth three_at_once) 2) 0%nat)
    = Done (map toTwitterUser ([] ++ [alice; carol; dave])).
Proof.
  apply (no_request_after_target 4 (Script.auth three_at_once) 2 0%nat
           [CallMe (Script.account "me")] "me"
           (followers_params 2 [] None)
           {| data := Some [alice; carol; dave];
              meta := {| next_token := Some "t1"%string |} |}
           [alice; carol; dave] []).
  - reflexivity.
  - reflexivity.
  - simpl. lia.
Defined.

(** ** C4 *)

(** C4: a response without data, wherever it occurs in the pagination, is
    the last request of the execution, and the function returns normally
    with the followers accumulated before it. *)
Theorem data_less_page_ends_listing {W} (fuel : nat) (auth : TwitterAuth W)
    (maxResults : Z) (w : W) pre user params response post :
  log_of (run (getMyFollowers fuel auth maxResults) w)
    = pre ++ CallFollowers user params (Ok response) :: post ->
  data response = None ->
  post = [] /\
  result_of (run (getMyFollowers fuel auth maxResults) w)
    = Done (map toTwitterUser (received pre)).
Proof.
  intros Hlog D.
  apply getMyFollowers_at_request in Hlog.
  destruct Hlog as (v2client & currentUserId & token & out & R & Hres).
  rewrite Hres.
  inversion R; subst;
    try match goal with
        | H : data ?r = Some _ |- _ => rewrite D in H; discriminate H
        end.
  split; reflexivity.
Qed.

Lemma data_less_page_ends_listing_witness :
  @nil event = [] /\
  result_of (run (getMyFollowers 4 (Script.auth gap_in_the_middle) 10) 0%nat)
    = Done (map toTwitterUser [alice]).
Proof.
  apply (data_less_page_ends_listing 4 (Script.auth gap_in_the_middle) 10 0%nat
           [CallMe (Script.account "me");
            CallFollowers "me" (followers_params 10 [] None)
                          (Script.page [alice] (Some "t1"%string))]
           "me"
           (followers_params 10 [toTwitterUser alice] (Some "t1"%string))
           {| data := None; meta := {| next_token := Some "t2"%string |} |}
           []).
  - reflexivity.
  - reflexivity.
Defined.

(** ** C5 *)

(** C5: when [getV2Client] returns nothing, each of the three functions
    throws the "V2 client is not initialized" error, the world is untouched
    and the log is empty: no call was made. *)
Theorem unauthenticated_guard {W} (auth : TwitterAuth W) (w : W)
    (username : string) (fuel : nat) (maxResults : Z) :
  getV2Client auth w = None ->
  run (unfollowUser username auth) w = (Raised (ErrorObj client_not_initialized), (w, [])) /\
  run (getMyFollowers fuel auth maxResults) w
    = (Raised (ErrorObj client_not_initialized), (w, [])) /\
  run (isFollowingMe username auth) w = (Raised (ErrorObj client_not_initialized), (w, [])).
Proof.
  intros H. repeat split; apply logged_out_log; auto.
Qed.

Lemma unauthenticated_guard_witness :
  run (unfollowUser "bob" (Script.auth logged_out)) 0%nat
    = (Raised (ErrorObj client_not_initialized), (0%nat, [])) /\
  run (getMyFollowers 3 (Script.auth logged_out) 100) 0%nat
    = (Raised (ErrorObj client_not_initialized), (0%nat, [])) /\
  run (isFollowingMe "bob" (Script.auth logged_out)) 0%nat
    = (Raised (ErrorObj client_not_initialized), (0%nat, [])).
Proof.
  apply (unauthenticated_guard (Script.auth logged_out) 0%nat "bob" 3 100).
  reflexivity.
Defined.

(** ** The error policy of the three functions *)

Lemma append_assoc (a b c : string) : (a +++ b) +++ c = a +++ b +++ c.
Proof. induction a as [|x a IH]; simpl; [reflexivity | rewrite IH; reflexivity]. Qed.

Lemma unfollow_message (username message : string) :
  wrapped (unfollow_prefix username) (ErrorObj message)
    = ErrorObj ("Failed to unfollow user " +++ username +++ ": " +++ message).
Proof. unfold unfollow_prefix; simpl. rewrite append_assoc. reflexivity. Qed.

Lemma following_message (username message : string) :
  wrapped (following_prefix username) (ErrorObj message)
    = ErrorObj ("Failed to check if " +++ username +++ " follows you: " +++ message).
Proof.
  unfold following_prefix. simpl wrapped.
  change ("Failed to check if " +++ username +++ " follows you: ")
    with ("Failed to check if " +++ (username +++ " follows you: ")).
  rewrite !append_assoc. reflexivity.
Qed.

Section Policies.
Context {W : Type} (auth : TwitterAuth W) (v2client : V2.t W) (w : W).
Hypothesis logged_in : getV2Client auth w = Some v2client.

Lemma unfollowUser_policy (username : string) :
  error_policy username (unfollow_prefix username) (run (unfollowUser username auth) w).
Proof.
  rewrite (unfollowUser_logged_in auth v2client w logged_in).
  apply caught_error_policy.
  apply (unfollow_run_first_failure username), (unfollowUser_try_run auth v2client).
Qed.

Lemma getMyFollowers_policy (username : string) (fuel : nat) (maxResults : Z) :
  error_policy username followers_prefix (run (getMyFollowers fuel auth maxResults) w).
Proof.
  rewrite (getMyFollowers_logged_in auth v2client w logged_in).
  apply caught_error_policy.
  apply (followers_run_first_failure v2client maxResults),
        (getMyFollowers_try_run auth v2client).
Qed.

Lemma isFollowingMe_policy (username : string) :
  error_policy username (following_prefix username) (run (isFollowingMe username auth) w).
Proof.
  rewrite (isFollowingMe_logged_in auth v2client w logged_in).
  apply caught_error_policy.
  apply (following_run_first_failure username), (isFollowingMe_try_run auth v2client).
Qed.
End Policies.

(** ** C2 *)

(** C2, as stated, fails for step 1: without a client handle [unfollowUser]
    throws the "V2 client is not initialized" error as it is, and not
    under the "Failed to unfollow user bob: " prefix. *)
Lemma unfollowUser_guard_not_wrapped :
  result_of (run (unfollowUser "bob" (Script.auth logged_out)) 0%nat)
    = Raised (ErrorObj client_not_initialized) /\
  result_of (run (unfollowUser "bob" (Script.auth logged_out)) 0%nat)
    <> Raised (ErrorObj ("Failed to unfollow user " +++ "bob" +++ ": "
                         +++ client_not_initialized)).
Proof. split; [reflexivity | discriminate]. Qed.

(** C2 (amended): in [unfollowUser] every error of steps 2 to 4 (the error
    a call threw, "User <username> not found", "Could not get current user
    ID") ends the execution at the call where it arose and is thrown again
    as an [Error] whose message is "Failed to unfollow user <username>: "
    followed by the original message, a thrown value that is not an [Error]
    being passed on unchanged; nothing else is ever thrown once the client
    handle is there.  The step-1 error, thrown when the handle is absent, is
    outside the try block: it reaches the caller with its own message. *)
Theorem unfollowUser_wraps_steps_2_to_4 {W} (username : string) (auth : TwitterAuth W)
    (w : W) :
  (getV2Client auth w = None ->
   run (unfollowUser username auth) w
     = (Raised (ErrorObj client_not_initialized), (w, []))) /\
  (forall v2client,
     getV2Client auth w = Some v2client ->
     error_policy username (unfollow_prefix username)
                  (run (unfollowUser username auth) w)) /\
  (forall message,
     wrapped (unfollow_prefix username) (ErrorObj message)
       = ErrorObj ("Failed to unfollow user " +++ username +++ ": " +++ message)) /\
  (forall value, wrapped (unfollow_prefix username) (NonError value) = NonError value).
Proof.
  split; [|split; [|split]].
  - intros H. apply logged_out_log; auto.
  - intros v2client H. eapply unfollowUser_policy; eauto.
  - apply unfollow_message.
  - reflexivity.
Qed.

Lemma unfollowUser_wraps_steps_2_to_4_witness :
  result_of (run (unfollowUser "bob" (Script.auth unfollow_rejected)) 0%nat)
    = Raised (ErrorObj "Failed to unfollow user bob: Too Many Requests") /\
  result_of (run (unfollowUser "bob" (Script.auth nobody_found)) 0%nat)
    = Raised (ErrorObj "Failed to unfollow user bob: User bob not found") /\
  run (unfollowUser "bob" (Script.auth logged_out)) 0%nat
    = (Raised (ErrorObj client_not_initialized), (0%nat, [])).
Proof.
  split; [|split].
  - destruct (unfollowUser_wraps_steps_2_to_4 "bob" (Script.auth unfollow_rejected) 0%nat)
      as (_ & P & _).
    destruct (P (Script.client unfollow_rejected) eq_refl) as [P1 _].
    apply (P1 [CallUserByUsername "bob" (Script.lookup Script.base);
               CallMe (Script.account "me")]
              (CallUnfollow "me" "bob" (Fail (ErrorObj "Too Many Requests")))
              [] (ErrorObj "Too Many Requests")); reflexivity.
  - destruct (unfollowUser_wraps_steps_2_to_4 "bob" (Script.auth nobody_found) 0%nat)
      as (_ & P & _).
    destruct (P (Script.client nobody_found) eq_refl) as [P1 _].
    apply (P1 [] (CallUserByUsername "bob" (Ok {| user_data := None |}))
              [] (ErrorObj (not_found "bob"))); reflexivity.
  - destruct (unfollowUser_wraps_steps_2_to_4 "bob" (Script.auth logged_out) 0%nat)
      as (G & _).
    apply G. reflexivity.
Defined.

(** ** C8 *)

(** C8: with a client handle, in each of the three functions the first
    failure inside the try block (an error thrown by a call, or the
    function's own "not found" and "could not get current user ID" errors)
    ends the execution at the call where it arose, and what the caller
    gets is that failure through the catch clause: an [Error] becomes an
    [Error] with the function's prefix put once before the original
    message, any other thrown value is passed on as it is.  Conversely
    whatever the function throws arose that way at its last call. *)
Theorem failures_wrapped_once {W} (auth : TwitterAuth W) (v2client : V2.t W) (w : W)
    (username : string) (fuel : nat) (maxResults : Z) :
  getV2Client auth w = Some v2client ->
  (error_policy username (unfollow_prefix username)
                (run (unfollowUser username auth) w) /\
   error_policy username followers_prefix
                (run (getMyFollowers fuel auth maxResults) w) /\
   error_policy username (following_prefix username)
                (run (isFollowingMe username auth) w)) /\
  (forall message,
     wrapped (unfollow_prefix username) (ErrorObj message)
       = ErrorObj ("Failed to unfollow user " +++ username +++ ": " +++ message) /\
     wrapped followers_prefix (ErrorObj message)
       = ErrorObj ("Failed to get followers: " +++ message) /\
     wrapped (following_prefix username) (ErrorObj message)
       = ErrorObj ("Failed to check if " +++ username +++ " follows you: " +++ message)) /\
  (forall prefix value, wrapped prefix (NonError value) = NonError value).
Proof.
  intros H. split; [|split].
  - split; [|split].
    + eapply unfollowUser_policy; eauto.
    + eapply getMyFollowers_policy; eauto.
    + eapply isFollowingMe_policy; eauto.
  - intros message. split; [|split].
    + apply unfollow_message.
    + reflexivity.
    + apply following_message.
  - reflexivity.
Qed.

Lemma failures_wrapped_once_witness :
  result_of (run (getMyFollowers 5 (Script.auth second_page_lost) 10) 0%nat)
    = Raised (NonError "ECONNRESET") /\
  result_of (run (isFollowingMe "bob" (Script.auth nobody_found)) 0%nat)
    = Raised (ErrorObj "Failed to check if bob follows you: User bob not found").
Proof.
  split.
  - destruct (failures_wrapped_once (Script.auth second_page_lost)
                (Script.client second_page_lost) 0%nat "bob" 5 10 eq_refl)
      as ((_ & P & _) & _).
    destruct P as [P1 _].
    apply (P1 [CallMe (Script.account "me");
               CallFollowers "me" (followers_params 10 [] None)
                             (Script.page [alice] (Some "t1"%string))]
              (CallFollowers "me" (followers_params 10 [toTwitterUser alice]
                                                    (Some "t1"%string))
                             (Fail (NonError "ECONNRESET")))
              [] (NonError "ECONNRESET")); reflexivity.
  - destruct (failures_wrapped_once (Script.auth nobody_found)
                (Script.client nobody_found) 0%nat "bob" 5 10 eq_refl)
      as ((_ & _ & P) & _).
    destruct P as [P1 _].
    apply (P1 [] (CallUserByUsername "bob" (Ok {| user_data := None |}))
              [] (ErrorObj (not_found "bob"))); reflexivity.
Defined.

(** ** C6 *)

Lemma some_following_true (relationship : UserTimeline) (currentUserId : string) :
  some_following relationship currentUserId = true <->
  exists users,
    data relationship = Some users /\ In currentUserId (map UserV2.id users).
Proof.
  unfold some_following. destruct (data relationship) as [users|].
  - rewrite existsb_exists. split.
    + intros (x & Hin & Heq). apply String.eqb_eq in Heq.
      exists users. split; [reflexivity|]. apply in_map_iff. exists x. auto.
    + intros (users' & Hd & Hin). inversion Hd; subst users'.
      apply in_map_iff in Hin. destruct Hin as (x & Heq & Hin).
      exists x. split; [assumption|]. apply String.eqb_eq. assumption.
  - split; [discriminate|]. intros (users & Hd & _). discriminate Hd.
Qed.

(** C6: when the lookup and the identity call succeed and the following
    request answers, [isFollowingMe] returns a boolean, which is [true]
    exactly when the page has data and the current account's id is the id
    of one of its entries; it is [false], and nothing is thrown, when the
    page has no data or the id is not among the entries. *)
Theorem isFollowingMe_membership {W} (username : string) (auth : TwitterAuth W)
    (v2client : V2.t W) (w w1 w2 w3 : W) user target currentUser currentUserId
    relationship :
  getV2Client auth w = Some v2client ->
  V2.userByUsername v2client username w = (Ok user, w1) ->
  user_data user = Some target ->
  me auth w1 = (Ok currentUser, w2) ->
  current_user_id currentUser = Some currentUserId ->
  V2.following v2client (UserV2.id target) following_params w2 = (Ok relationship, w3) ->
  exists b,
    result_of (run (isFollowingMe username auth) w) = Done b /\
    (b = true <->
     exists users,
       data relationship = Some users /\ In currentUserId (map UserV2.id users)) /\
    (b = false <->
     data relationship = None \/
     exists users,
       data relationship = Some users /\ ~ In currentUserId (map UserV2.id users)).
Proof.
  intros Hc Hlookup Htarget Hme Hid Hfollowing.
  exists (some_following relationship currentUserId). split; [|split].
  - rewrite (isFollowingMe_logged_in auth v2client w Hc).
    unfold result_of, run, isFollowingMe_try, bind, await; simpl.
    rewrite Hlookup; simpl. rewrite Htarget; simpl. rewrite Hme; simpl.
    rewrite Hid; simpl. rewrite Hfollowing; reflexivity.
  - apply some_following_true.
  - pose proof (some_following_true relationship currentUserId) as T.
    destruct (some_following relationship currentUserId); split.
    + discriminate.
    + intros [Hn | (users & Hd & Hn)].
      * destruct T as [T _]. destruct (T eq_refl) as (users & Hd & _). congruence.
      * destruct T as [T _]. destruct (T eq_refl) as (users' & Hd' & Hin). congruence.
    + intros _. destruct (data relationship) as [users|] eqn:D; [right | left; reflexivity].
      exists users. split; [reflexivity|]. intros Hin.
      destruct T as [_ T]. discriminate T. exists users. auto.
    + reflexivity.
Qed.

Lemma isFollowingMe_membership_witness :
  exists b,
    result_of (run (isFollowingMe "bob" (Script.auth followed_back)) 0%nat) = Done b /\
    (b = true <->
     exists users,
       Some [Script.user "me" None] = Some users /\ In "me"%string (map UserV2.id users)) /\
    (b = false <->
     Some [Script.user "me" None] = None \/
     exists users,
       Some [Script.user "me" None] = Some users /\ ~ In "me"%string (map UserV2.id users)).
Proof.
  apply (isFollowingMe_membership "bob" (Script.auth followed_back)
           (Script.client followed_back) 0%nat 0%nat 0%nat 0%nat
           {| user_data := Some (Script.user "bob" None) |} (Script.user "bob" None)
           (Some {| userId := Some "me"%string |}) "me"
           {| data := Some [Script.user "me" None];
              meta := {| next_token := None |} |}); reflexivity.
Defined.

(** ** C7 *)

Lemma toTwitterUser_image (source : UserV2.t) : image_rule source (toTwitterUser source).
Proof.
  unfold image_rule, toTwitterUser, or_else; simpl.
  destruct (UserV2.profile_image_url source) as [url|].
  - destruct (String.eqb url EmptyString) eqn:E.
    + apply String.eqb_eq in E. subst url. repeat split.
      * intros url H Hn. inversion H; subst. contradiction.
      * discriminate.
    + apply String.eqb_neq in E. repeat split.
      * intros [H|H]; [discriminate H | inversion H; contradiction].
      * intros url' H _. inversion H; reflexivity.
      * assumption.
  - repeat split; [discriminate | discriminate].
Qed.

Lemma getMyFollowers_result {W} (fuel : nat) (auth : TwitterAuth W) (maxResults : Z)
    (w : W) (followers : list TwitterUser.t) :
  result_of (run (getMyFollowers fuel auth maxResults) w) = Done followers ->
  followers
    = map toTwitterUser (received (log_of (run (getMyFollowers fuel auth maxResults) w))).
Proof.
  intros Hres. destruct (getV2Client auth w) as [v2client|] eqn:Hc.
  - rewrite (getMyFollowers_logged_in auth v2client w Hc) in *.
    unfold result_of at 1 in Hres; simpl in Hres. unfold log_of at 1; simpl.
    pose proof (getMyFollowers_try_run auth v2client maxResults fuel w) as R.
    unfold log_of in R.
    destruct (result_of (run (getMyFollowers_try fuel auth v2client maxResults) w))
      as [result|e|]; simpl in Hres; try discriminate Hres.
    inversion Hres; subst result.
    inversion R as [e He|currentUser C He|currentUser currentUserId trace out C L He].
    apply loop_run_result in L. exact L.
  - unfold getMyFollowers in Hres.
    rewrite (logged_out_log w _ auth (ErrorObj client_not_initialized) Hc eq_refl) in Hres.
    discriminate Hres.
Qed.

(** C7: the object built from an API user has the placeholder as
    [profileImageUrl] when the user's [profile_image_url] is absent or
    empty and that field's own value otherwise, so it is never empty; and
    this is how the user returned by [unfollowUser] is related to the
    looked-up user, and each user returned by [getMyFollowers] to the
    entry received at the same position.  ([isFollowingMe] returns a
    boolean, no user.) *)
Theorem profile_image_fallback :
  (forall source, image_rule source (toTwitterUser source)) /\
  (forall W (username : string) (auth : TwitterAuth W) (w : W) user,
     result_of (run (unfollowUser username auth) w) = Done user ->
     exists response source,
       In (CallUserByUsername username (Ok response))
          (log_of (run (unfollowUser username auth) w)) /\
       user_data response = Some source /\
       image_rule source user) /\
  (forall W (fuel : nat) (auth : TwitterAuth W) (maxResults : Z) (w : W) followers,
     result_of (run (getMyFollowers fuel auth maxResults) w) = Done followers ->
     Forall2 image_rule
             (received (log_of (run (getMyFollowers fuel auth maxResults) w)))
             followers).
Proof.
  split; [exact toTwitterUser_image | split].
  - intros W username auth w user Hres.
    destruct (getV2Client auth w) as [v2client|] eqn:Hc.
    + rewrite (unfollowUser_logged_in auth v2client w Hc) in *.
      unfold result_of at 1 in Hres; simpl in Hres. unfold log_of at 1; simpl.
      pose proof (unfollowUser_try_run auth v2client username w) as R.
      unfold log_of in R.
      destruct (result_of (run (unfollowUser_try username auth v2client) w))
        as [result|e|]; simpl in Hres; try discriminate Hres.
      inversion Hres; subst result.
      inversion R as [| | | | |response target currentUser currentUserId D C Hl Hu].
      exists response, target. split; [left; reflexivity|].
      split; [assumption | apply toTwitterUser_image].
    + unfold unfollowUser in Hres.
      rewrite (logged_out_log w _ auth (ErrorObj client_not_initialized) Hc eq_refl)
        in Hres.
      discriminate Hres.
  - intros W fuel auth maxResults w followers Hres.
    rewrite (getMyFollowers_result fuel auth maxResults w followers Hres).
    induction (received (log_of (run (getMyFollowers fuel auth maxResults) w)))
      as [|source sources IH]; simpl; constructor;
      [apply toTwitterUser_image | exact IH].
Qed.

Lemma profile_image_fallback_witness :
  Forall2 image_rule
          (received (log_of (run (getMyFollowers 1 (Script.auth three_at_once) 2) 0%nat)))
          (map toTwitterUser [alice; carol; dave]).
Proof.
  destruct profile_image_fallback as (_ & _ & P).
  apply (P nat 1%nat (Script.auth three_at_once) 2 0%nat). reflexivity.
Defined.

(** ** C9 *)

Lemma page_requests_snoc (log : list event) user params r :
  page_requests (log ++ [CallFollowers user params r]) = S (page_requests log).
Proof.
  unfold page_requests. rewrite filter_app, length_app. simpl. lia.
Qed.

Section EmptyPages.
Context {W : Type} (v2client : V2.t W) (currentUserId : string) (maxResults : Z).

(** An iteration with fuel begins with its request. *)
Lemma followers_loop_first_request (fuel : nat) followers token (w : W) log :
  exists rest,
    log_of (followers_loop (S fuel) v2client currentUserId maxResults
                           followers token (w, log))
    = log ++ CallFollowers currentUserId (followers_params maxResults followers token)
               (fst (V2.followers v2client currentUserId
                       (followers_params maxResults followers token) w))
             :: rest.
Proof.
  unfold log_of; simpl; unfold bind, await; simpl.
  destruct (V2.followers v2client currentUserId
              (followers_params maxResults followers token) w) as [r w'].
  simpl. destruct r as [response|e]; simpl; [|exists []; reflexivity].
  destruct (data response) as [users|]; [|exists []; reflexivity].
  destruct (_ >=? _); [exists []; reflexivity|].
  destruct (truthy _); [|exists []; reflexivity].
  match goal with
  | |- context [followers_loop fuel _ _ _ ?f ?t (?w1, ?l)] =>
      destruct (followers_loop_run v2client currentUserId maxResults fuel f t w1 l)
        as [trace [Hlog _]]
  end.
  unfold log_of in Hlog. rewrite Hlog, <- app_assoc. exists trace. reflexivity.
Qed.

(** After an empty page with a cursor, below the target, the loop goes
    round again with the same accumulator and the new cursor. *)
Lemma followers_loop_empty_page (fuel : nat) followers token (w w' : W) log response :
  V2.followers v2client currentUserId (followers_params maxResults followers token) w
    = (Ok response, w') ->
  data response = Some [] ->
  truthy (next_token (meta response)) = true ->
  Z.of_nat (length followers) < maxResults ->
  followers_loop (S fuel) v2client currentUserId maxResults followers token (w, log)
  = followers_loop fuel v2client currentUserId maxResults followers
                   (next_token (meta response))
                   (w', log ++ [CallFollowers currentUserId
                                  (followers_params maxResults followers token)
                                  (Ok response)]).
Proof.
  intros Hreply Hdata Hnext Hbelow.
  simpl; unfold bind, await; simpl. rewrite Hreply; simpl. rewrite Hdata; simpl.
  rewrite app_nil_r, Hnext.
  destruct (Z.of_nat (length followers) >=? maxResults) eqn:G; [|reflexivity].
  apply Z.geb_le in G. lia.
Qed.

Lemma followers_loop_never_ends (fuel : nat) :
  always_empty_with_cursor v2client ->
  forall followers token (w : W) log,
    Z.of_nat (length followers) < maxResults ->
    result_of (followers_loop fuel v2client currentUserId maxResults
                              followers token (w, log)) = OutOfFuel /\
    page_requests (log_of (followers_loop fuel v2client currentUserId maxResults
                                          followers token (w, log)))
    = (page_requests log + fuel)%nat.
Proof.
  intros Hserver. induction fuel as [|fuel IH]; intros followers token w log Hbelow.
  - simpl. split; [reflexivity | unfold log_of; simpl; lia].
  - destruct (Hserver currentUserId (followers_params maxResults followers token) w)
      as (response & w' & Hreply & Hdata & Hnext).
    rewrite (followers_loop_empty_page fuel followers token w w' log response
               Hreply Hdata Hnext Hbelow).
    destruct (IH followers (next_token (meta response)) w'
                 (log ++ [CallFollowers currentUserId
                            (followers_params maxResults followers token)
                            (Ok response)]) Hbelow) as [Hout Hcount].
    split; [exact Hout|]. rewrite Hcount, page_requests_snoc. lia.
Qed.
End EmptyPages.

Lemma empty_forever_always_empty : always_empty_with_cursor (Script.client empty_forever).
Proof.
  intros user params w.
  exists {| data := Some []; meta := {| next_token := Some "again"%string |} |}, (S w).
  simpl. destruct w; repeat split; reflexivity.
Qed.

(** C9: a page with an empty list of entries and a cursor, received while
    fewer than [maxResults] followers are accumulated, is followed by another
    request, made with the same accumulator and that cursor; and against a
    server all of whose pages are such, [getMyFollowers] with a positive
    [maxResults] has not returned after any number of iterations: with fuel
    for [n] of them it makes [n] requests and is still running. *)
Theorem empty_pages_do_not_stop_the_loop {W} (auth : TwitterAuth W) (v2client : V2.t W)
    (currentUserId : string) (maxResults : Z) :
  (forall (fuel : nat) followers token (w w' : W) log response,
     V2.followers v2client currentUserId (followers_params maxResults followers token) w
       = (Ok response, w') ->
     data response = Some [] ->
     truthy (next_token (meta response)) = true ->
     Z.of_nat (length followers) < maxResults ->
     exists r rest,
       log_of (followers_loop (S (S fuel)) v2client currentUserId maxResults
                              followers token (w, log))
       = log ++ CallFollowers currentUserId
                  (followers_params maxResults followers token) (Ok response)
             :: CallFollowers currentUserId
                  (followers_params maxResults followers (next_token (meta response))) r
             :: rest) /\
  (forall (w w1 : W) currentUser,
     getV2Client auth w = Some v2client ->
     me auth w = (Ok currentUser, w1) ->
     current_user_id currentUser = Some currentUserId ->
     0 < maxResults ->
     always_empty_with_cursor v2client ->
     forall fuel : nat,
       result_of (run (getMyFollowers fuel auth maxResults) w) = OutOfFuel /\
       page_requests (log_of (run (getMyFollowers fuel auth maxResults) w)) = fuel).
Proof.
  split.
  - intros fuel followers token w w' log response Hreply Hdata Hnext Hbelow.
    rewrite (followers_loop_empty_page v2client currentUserId maxResults (S fuel)
               followers token w w' log response Hreply Hdata Hnext Hbelow).
    destruct (followers_loop_first_request v2client currentUserId maxResults fuel
                followers (next_token (meta response)) w'
                (log ++ [CallFollowers currentUserId
                           (followers_params maxResults followers token) (Ok response)]))
      as [rest Hlog].
    rewrite Hlog, <- app_assoc. eexists; eexists; reflexivity.
  - intros w w1 currentUser Hc Hme Hid Hpos Hserver fuel.
    rewrite (getMyFollowers_logged_in auth v2client w Hc).
    unfold result_of at 1, log_of at 1; simpl.
    unfold run, getMyFollowers_try, bind, await; simpl.
    rewrite Hme; simpl. rewrite Hid; simpl.
    destruct (followers_loop_never_ends v2client currentUserId maxResults fuel Hserver
                [] None w1 [CallMe (Ok currentUser)]) as [Hout Hcount];
      [simpl; lia|].
    unfold result_of, log_of in *. rewrite Hout, Hcount. split; reflexivity.
Qed.

Lemma empty_pages_do_not_stop_the_loop_witness :
  result_of (run (getMyFollowers 25 (Script.auth empty_forever) 3) 0%nat) = OutOfFuel /\
  page_requests (log_of (run (getMyFollowers 25 (Script.auth empty_forever) 3) 0%nat))
    = 25%nat.
Proof.
  destruct (empty_pages_do_not_stop_the_loop (Script.auth empty_forever)
              (Script.client empty_forever) "me" 3) as [_ D].
  apply (D 0%nat 0%nat (Some {| userId := Some "me"%string |})).
  - reflexivity.
  - reflexivity.
  - reflexivity.
  - lia.
  - exact empty_forever_always_empty.
Defined.

(** ** C10 *)

(** C10: with [maxResults <= 0] and a resolved account, [getMyFollowers]
    makes exactly one followers request, whose [max_results] is
    [min(100, maxResults)], a number that is not positive; when the reply
    carries entries, they are all returned. *)
Theorem non_positive_maxResults_still_fetches {W} (fuel : nat) (auth : TwitterAuth W)
    (v2client : V2.t W) (w w1 w2 : W) currentUser currentUserId (maxResults : Z) r :
  maxResults <= 0 ->
  getV2Client auth w = Some v2client ->
  me auth w = (Ok currentUser, w1) ->
  current_user_id currentUser = Some currentUserId ->
  V2.followers v2client currentUserId (followers_params maxResults [] None) w1 = (r, w2) ->
  max_results (followers_params maxResults [] None) = Z.min 100 maxResults /\
  max_results (followers_params maxResults [] None) <= 0 /\
  log_of (run (getMyFollowers (S fuel) auth maxResults) w)
    = [CallMe (Ok currentUser);
       CallFollowers currentUserId (followers_params maxResults [] None) r] /\
  (forall response users,
     r = Ok response -> data response = Some users ->
     result_of (run (getMyFollowers (S fuel) auth maxResults) w)
       = Done (map toTwitterUser users)).
Proof.
  intros Hmax Hc Hme Hid Hreply.
  split; [|split; [|split]].
  - unfold followers_params; simpl. rewrite Z.sub_0_r. reflexivity.
  - unfold followers_params; simpl. lia.
  - rewrite (getMyFollowers_logged_in auth v2client w Hc).
    unfold log_of, run, getMyFollowers_try, bind, await; simpl.
    rewrite Hme; simpl. rewrite Hid; simpl. unfold bind, await; simpl.
    rewrite Hreply; simpl.
    destruct r as [response|e]; simpl; [|reflexivity].
    destruct (data response) as [users|]; [|reflexivity].
    destruct (_ >=? _) eqn:G; [reflexivity|].
    rewrite Z.geb_leb in G. apply Z.leb_gt in G. lia.
  - intros response users -> Hdata.
    rewrite (getMyFollowers_logged_in auth v2client w Hc).
    unfold result_of, run, getMyFollowers_try, bind, await; simpl.
    rewrite Hme; simpl. rewrite Hid; simpl. unfold bind, await; simpl.
    rewrite Hreply; simpl. rewrite Hdata.
    destruct (_ >=? _) eqn:G; [reflexivity|].
    rewrite Z.geb_leb in G. apply Z.leb_gt in G. lia.
Qed.

Lemma non_positive_maxResults_still_fetches_witness :
  result_of (run (getMyFollowers 1 (Script.auth three_at_once) 0) 0%nat)
    = Done (map toTwitterUser [alice; carol; dave]) /\
  page_requests (log_of (run (getMyFollowers 1 (Script.auth three_at_once) 0) 0%nat))
    = 1%nat.
Proof.
  destruct (non_positive_maxResults_still_fetches 0 (Script.auth three_at_once)
              (Script.client three_at_once) 0%nat 0%nat 1%nat
              (Some {| userId := Some "me"%string |}) "me" 0
              (Script.page [alice; carol; dave] (Some "t1"%string)))
    as (_ & _ & Hlog & Hres); try reflexivity; try lia.
  split.
  - apply (Hres {| data := Some [alice; carol; dave];
                   meta := {| next_token := Some "t1"%string |} |}
                [alice; carol; dave]); reflexivity.
  - rewrite Hlog. reflexivity.
Defined.

(** * Further properties of unfollow.ts *)

(** ** Every execution, by cases *)

Lemma unfollowUser_cases {W} (username : string) (auth : TwitterAuth W) (w : W) :
  run (unfollowUser username auth) w = (Raised (ErrorObj client_not_initialized), (w, [])) \/
  exists out,
    unfollow_run username (log_of (run (unfollowUser username auth) w)) out /\
    result_of (run (unfollowUser username auth) w) = caught (unfollow_prefix username) out.
Proof.
  destruct (getV2Client auth w) as [v2client|] eqn:Hc.
  - right. rewrite (unfollowUser_logged_in auth v2client w Hc).
    exists (result_of (run (unfollowUser_try username auth v2client) w)).
    split; [apply unfollowUser_try_run | reflexivity].
  - left. apply logged_out_log; auto.
Qed.

Lemma isFollowingMe_cases {W} (username : string) (auth : TwitterAuth W) (w : W) :
  run (isFollowingMe username auth) w = (Raised (ErrorObj client_not_initialized), (w, [])) \/
  exists out,
    following_run username (log_of (run (isFollowingMe username auth) w)) out /\
    result_of (run (isFollowingMe username auth) w) = caught (following_prefix username) out.
Proof.
  destruct (getV2Client auth w) as [v2client|] eqn:Hc.
  - right. rewrite (isFollowingMe_logged_in auth v2client w Hc).
    exists (result_of (run (isFollowingMe_try username auth v2client) w)).
    split; [apply isFollowingMe_try_run | reflexivity].
  - left. apply logged_out_log; auto.
Qed.

Lemma getMyFollowers_cases {W} (fuel : nat) (auth : TwitterAuth W) (maxResults : Z) (w : W) :
  run (getMyFollowers fuel auth maxResults) w
    = (Raised (ErrorObj client_not_initialized), (w, [])) \/
  exists (v2client : V2.t W) out,
    getV2Client auth w = Some v2client /\
    followers_run v2client maxResults
                  (log_of (run (getMyFollowers fuel auth maxResults) w)) out /\
    result_of (run (getMyFollowers fuel auth maxResults) w) = caught followers_prefix out.
Proof.
  destruct (getV2Client auth w) as [v2client|] eqn:Hc.
  - right. rewrite (getMyFollowers_logged_in auth v2client w Hc).
    exists v2client, (result_of (run (getMyFollowers_try fuel auth v2client maxResults) w)).
    split; [reflexivity|].
    split; [apply getMyFollowers_try_run | reflexivity].
  - left. apply logged_out_log; auto.
Qed.

Lemma current_user_id_none (currentUser : option Profile) :
  current_user_id currentUser = None <-> unresolved currentUser.
Proof.
  unfold current_user_id, unresolved, truthy. split.
  - destruct currentUser as [p|]; [|auto]. intros H. right. exists p. split; [reflexivity|].
    destruct (userId p) as [v|] eqn:U; [|auto].
    destruct (String.eqb v EmptyString) eqn:E; simpl in H; [|discriminate H].
    apply String.eqb_eq in E. subst v. auto.
  - intros [->|(p & -> & [U|U])]; [reflexivity | |]; rewrite U; reflexivity.
Qed.

(** ** Guards of the try blocks *)

(** X1: when the lookup by username answers without data, [unfollowUser] and
    [isFollowingMe] throw "... User <username> not found" under their own
    prefix, and the lookup is the only call they have made: neither the
    identity call nor the unfollow or following call is reached. *)
Theorem unknown_user_guard {W} (username : string) (auth : TwitterAuth W)
    (v2client : V2.t W) (w w1 : W) (user : UserV2Result) :
  getV2Client auth w = Some v2client ->
  V2.userByUsername v2client username w = (Ok user, w1) ->
  user_data user = None ->
  run (unfollowUser username auth) w
    = (Raised (ErrorObj ("Failed to unfollow user " +++ username +++ ": "
                         +++ "User " +++ username +++ " not found")),
       (w1, [CallUserByUsername username (Ok user)])) /\
  run (isFollowingMe username auth) w
    = (Raised (ErrorObj ("Failed to check if " +++ username +++ " follows you: "
                         +++ "User " +++ username +++ " not found")),
       (w1, [CallUserByUsername username (Ok user)])).
Proof.
  intros Hc Hlookup Hdata. split.
  - rewrite (unfollowUser_logged_in auth v2client w Hc).
    assert (E : run (unfollowUser_try username auth v2client) w
                = (Raised (ErrorObj (not_found username)),
                   (w1, [CallUserByUsername username (Ok user)]))).
    { unfold run, unfollowUser_try, bind, await; simpl.
      rewrite Hlookup; simpl. rewrite Hdata; reflexivity. }
    rewrite E. unfold result_of. cbn [fst snd caught].
    rewrite unfollow_message. reflexivity.
  - rewrite (isFollowingMe_logged_in auth v2client w Hc).
    assert (E : run (isFollowingMe_try username auth v2client) w
                = (Raised (ErrorObj (not_found username)),
                   (w1, [CallUserByUsername username (Ok user)]))).
    { unfold run, isFollowingMe_try, bind, await; simpl.
      rewrite Hlookup; simpl. rewrite Hdata; reflexivity. }
    rewrite E. unfold result_of. cbn [fst snd caught].
    rewrite following_message. reflexivity.
Qed.

Lemma unknown_user_guard_witness :
  run (unfollowUser "bob" (Script.auth nobody_found)) 0%nat
    = (Raised (ErrorObj "Failed to unfollow user bob: User bob not found"),
       (0%nat, [CallUserByUsername "bob" (Ok {| user_data := None |})])) /\
  run (isFollowingMe "bob" (Script.auth nobody_found)) 0%nat
    = (Raised (ErrorObj "Failed to check if bob follows you: User bob not found"),
       (0%nat, [CallUserByUsername "bob" (Ok {| user_data := None |})])).
Proof.
  apply (unknown_user_guard "bob" (Script.auth nobody_found)
           (Script.client nobody_found) 0%nat 0%nat {| user_data := None |});
    reflexivity.
Defined.

(** X2: when [auth.me()] resolves to nothing, to a profile without
    [userId] or to one whose [userId] is the empty string, [getMyFollowers]
    throws "Failed to get followers: Could not get current user ID. ..."
    without having requested any page, and [unfollowUser], after a
    successful lookup, throws the same message under its prefix without
    having called unfollow. *)
Theorem unresolved_identity_guard {W} (username : string) (auth : TwitterAuth W)
    (v2client : V2.t W) (w : W) :
  getV2Client auth w = Some v2client ->
  (forall (fuel : nat) (maxResults : Z) (w1 : W) currentUser,
     me auth w = (Ok currentUser, w1) ->
     unresolved currentUser ->
     run (getMyFollowers fuel auth maxResults) w
       = (Raised (ErrorObj ("Failed to get followers: " +++ no_current_user)),
          (w1, [CallMe (Ok currentUser)]))) /\
  (forall (w1 w2 : W) user target currentUser,
     V2.userByUsername v2client username w = (Ok user, w1) ->
     user_data user = Some target ->
     me auth w1 = (Ok currentUser, w2) ->
     unresolved currentUser ->
     run (unfollowUser username auth) w
       = (Raised (ErrorObj ("Failed to unfollow user " +++ username +++ ": "
                            +++ no_current_user)),
          (w2, [CallUserByUsername username (Ok user); CallMe (Ok currentUser)]))).
Proof.
  intros Hc. split.
  - intros fuel maxResults w1 currentUser Hme Hun.
    apply current_user_id_none in Hun.
    rewrite (getMyFollowers_logged_in auth v2client w Hc).
    unfold result_of, run, getMyFollowers_try, bind, await; simpl.
    rewrite Hme; simpl. rewrite Hun; reflexivity.
  - intros w1 w2 user target currentUser Hlookup Hdata Hme Hun.
    apply current_user_id_none in Hun.
    rewrite (unfollowUser_logged_in auth v2client w Hc).
    assert (E : run (unfollowUser_try username auth v2client) w
                = (Raised (ErrorObj no_current_user),
                   (w2, [CallUserByUsername username (Ok user);
                         CallMe (Ok currentUser)]))).
    { unfold run, unfollowUser_try, bind, await; simpl.
      rewrite Hlookup; simpl. rewrite Hdata; simpl. rewrite Hme; simpl.
      rewrite Hun; reflexivity. }
    rewrite E. unfold result_of. cbn [fst snd caught].
    rewrite unfollow_message. reflexivity.
Qed.

Lemma unresolved_identity_guard_witness :
  run (getMyFollowers 3 (Script.auth blank_identity) 10) 0%nat
    = (Raised (ErrorObj ("Failed to get followers: " +++ no_current_user)),
       (0%nat, [CallMe (Ok (Some {| userId := Some EmptyString |}))])).
Proof.
  destruct (unresolved_identity_guard "bob" (Script.auth blank_identity)
              (Script.client blank_identity) 0%nat eq_refl) as [G _].
  apply (G 3%nat 10 0%nat (Some {| userId := Some EmptyString |})).
  - reflexivity.
  - right. exists {| userId := Some EmptyString |}. split; [reflexivity | right; reflexivity].
Defined.

(** ** unfollowUser: the unfollow call *)

(** X3: in any execution of [unfollowUser], an unfollow call comes third and
    last, after a lookup that gave the target and an identity call that gave
    the current id, and it is made with (current id, target id); and the
    function returns a user only after that call succeeded, the user being
    built from the data of the lookup. *)
Theorem unfollow_call_targets_lookup {W} (username : string) (auth : TwitterAuth W)
    (w : W) :
  (forall pre source target r post,
     log_of (run (unfollowUser username auth) w)
       = pre ++ CallUnfollow source target r :: post ->
     exists response found currentUser,
       pre = [CallUserByUsername username (Ok response); CallMe (Ok currentUser)] /\
       user_data response = Some found /\
       current_user_id currentUser = Some source /\
       target = UserV2.id found /\
       post = []) /\
  (forall user,
     result_of (run (unfollowUser username auth) w) = Done user ->
     exists response found currentUser source,
       log_of (run (unfollowUser username auth) w)
         = [CallUserByUsername username (Ok response); CallMe (Ok currentUser);
            CallUnfollow source (UserV2.id found) (Ok tt)] /\
       user_data response = Some found /\
       current_user_id currentUser = Some source /\
       user = toTwitterUser found).
Proof.
  destruct (unfollowUser_cases username auth w) as [Hout | (out & R & Hres)].
  - rewrite Hout. split.
    + intros pre source target r post H. destruct pre; discriminate H.
    + intros user H. discriminate H.
  - split.
    + intros pre source target r post H. rewrite H in R.
      inversion R; subst; split_trace; eauto 10.
    + intros user H. rewrite Hres in H.
      inversion R as [ | | | | |response found currentUser source D C Hl Ho];
        subst out; simpl in H; try discriminate H.
      inversion H; subst user. eauto 10.
Qed.

Lemma unfollow_call_targets_lookup_witness :
  exists response found currentUser source,
    log_of (run (unfollowUser "bob" (Script.auth Script.base)) 0%nat)
      = [CallUserByUsername "bob" (Ok response); CallMe (Ok currentUser);
         CallUnfollow source (UserV2.id found) (Ok tt)] /\
    user_data response = Some found /\
    current_user_id currentUser = Some source /\
    toTwitterUser (Script.user "bob" None) = toTwitterUser found.
Proof.
  destruct (unfollow_call_targets_lookup "bob" (Script.auth Script.base) 0%nat)
    as [_ D].
  apply (D (toTwitterUser (Script.user "bob" None))). reflexivity.
Defined.

(** ** getMyFollowers: the requests of the loop *)

Lemma received_cons_followers user params response users (log : list event) :
  data response = Some users ->
  received (CallFollowers user params (Ok response) :: log) = users ++ received log.
Proof. intros D. unfold received; simpl. rewrite D. reflexivity. Qed.

Section RequestShape.
Context {W : Type} (v2client : V2.t W) (currentUserId : string) (maxResults : Z).

(** The request at any point of a run: made for the accumulator of that
    point, with the cursor the loop was entered with if it is the first
    one, and otherwise with the cursor of the page before, which was truthy
    and left the accumulator below the target. *)
Lemma loop_run_request_shape (pre : list event) :
  forall followers token ev post out,
    loop_run v2client currentUserId maxResults followers token (pre ++ ev :: post) out ->
    exists token' r,
      ev = request currentUserId maxResults
                   (followers ++ map toTwitterUser (received pre)) token' r /\
      ((pre = [] /\ token' = token) \/
       exists pre' params response users,
         pre = pre' ++ [CallFollowers currentUserId params (Ok response)] /\
         data response = Some users /\
         token' = next_token (meta response) /\
         truthy token' = true /\
         Z.of_nat (length (followers ++ map toTwitterUser (received pre))) < maxResults).
Proof.
  induction pre as [|first pre IH]; intros followers token ev post out R; simpl in *.
  - rewrite app_nil_r.
    inversion R; subst; eexists; eexists; (split; [reflexivity | left; auto]).
  - inversion R as [ | | | | |f t response users trace o Hs D Hlt Ht Hrest];
      subst; try (destruct pre; discriminate).
    apply IH in Hrest.
    destruct Hrest as (token' & r & Hev & Hshape).
    unfold request in *. simpl entries_of. rewrite D.
    rewrite !map_app, !app_assoc in *.
    exists token', r. split; [exact Hev|]. right.
    destruct Hshape as [[-> ->] | (pre' & params & response' & users' & -> & D' & Ht' & Htr & Hlt')].
    + exists [], (followers_params maxResults followers token), response, users.
      simpl. rewrite app_nil_r. auto.
    + exists (CallFollowers currentUserId (followers_params maxResults followers token)
                            (Ok response) :: pre'),
             params, response', users'.
      auto.
Qed.
End RequestShape.

(** The same for [getMyFollowers]: the log begins with the identity call
    that gave the id every request is made for. *)
Lemma getMyFollowers_request_shape {W} (fuel : nat) (auth : TwitterAuth W) (maxResults : Z)
    (w : W) pre user params r post :
  log_of (run (getMyFollowers fuel auth maxResults) w)
    = pre ++ CallFollowers user params r :: post ->
  exists currentUser earlier token,
    pre = CallMe (Ok currentUser) :: earlier /\
    current_user_id currentUser = Some user /\
    params = followers_params maxResults (map toTwitterUser (received pre)) token /\
    ((earlier = [] /\ token = None) \/
     exists earlier' params' response users,
       earlier = earlier' ++ [CallFollowers user params' (Ok response)] /\
       data response = Some users /\
       token = next_token (meta response) /\
       truthy token = true /\
       Z.of_nat (length (received pre)) < maxResults).
Proof.
  intros Hlog.
  destruct (getMyFollowers_cases fuel auth maxResults w)
    as [Hout | (v2client & out & Hc & R & Hres)].
  - rewrite Hout in Hlog. destruct pre; discriminate Hlog.
  - rewrite Hlog in R.
    inversion R as [e He|currentUser C He|currentUser currentUserId trace o C L He];
      subst; [split_trace | split_trace |].
    destruct pre as [|first earlier]; simpl in He; inversion He; subst.
    apply loop_run_request_shape in L.
    destruct L as (token & r' & Hev & Hshape). simpl in Hev.
    unfold request in Hev. inversion Hev; subst.
    exists currentUser, earlier, token.
    split; [reflexivity|]. split; [assumption|]. split; [reflexivity|].
    destruct Hshape as [[-> ->] | (pre' & params' & response & users & -> & D & Ht & Htr & Hlt)].
    + left. auto.
    + right. exists pre', params', response, users.
      simpl in Hlt. rewrite length_map in Hlt.
      change (received (CallMe (Ok currentUser) :: pre' ++ [CallFollowers currentUserId params' (Ok response)]))
        with (received (pre' ++ [CallFollowers currentUserId params' (Ok response)])).
      auto.
Qed.

(** ** The order of the calls *)

Lemma loop_run_endpoints {W} (v2client : V2.t W) currentUserId maxResults
    followers token trace out :
  loop_run v2client currentUserId maxResults followers token trace out ->
  map endpoint_of trace = repeat Followers (length trace).
Proof. induction 1; simpl; try reflexivity. rewrite IHloop_run. reflexivity. Qed.

(** X4: the calls of an execution follow a fixed order.  [unfollowUser]
    makes an initial part of: lookup, identity, unfollow; [isFollowingMe] an
    initial part of: lookup, identity, following; [getMyFollowers] none, or
    one identity call followed by followers requests only.  So the two
    reading functions never call unfollow, and [unfollowUser] calls it at
    most once. *)
Theorem calls_in_order :
  (forall W (username : string) (auth : TwitterAuth W) (w : W),
     exists rest,
       map endpoint_of (log_of (run (unfollowUser username auth) w)) ++ rest
       = [UserByUsername; Me; Unfollow]) /\
  (forall W (username : string) (auth : TwitterAuth W) (w : W),
     exists rest,
       map endpoint_of (log_of (run (isFollowingMe username auth) w)) ++ rest
       = [UserByUsername; Me; Following]) /\
  (forall W (fuel : nat) (auth : TwitterAuth W) (maxResults : Z) (w : W),
     map endpoint_of (log_of (run (getMyFollowers fuel auth maxResults) w)) = [] \/
     exists n,
       map endpoint_of (log_of (run (getMyFollowers fuel auth maxResults) w))
       = Me :: repeat Followers n).
Proof.
  split; [|split].
  - intros W username auth w.
    destruct (unfollowUser_cases username auth w) as [Hout | (out & R & _)].
    + rewrite Hout. eexists; reflexivity.
    + inversion R; simpl; eexists; reflexivity.
  - intros W username auth w.
    destruct (isFollowingMe_cases username auth w) as [Hout | (out & R & _)].
    + rewrite Hout. eexists; reflexivity.
    + inversion R; simpl; eexists; reflexivity.
  - intros W fuel auth maxResults w.
    destruct (getMyFollowers_cases fuel auth maxResults w)
      as [Hout | (v2client & out & _ & R & _)].
    + rewrite Hout. left; reflexivity.
    + right. inversion R as [e He|currentUser C He|currentUser currentUserId trace o C L He].
      * exists 0%nat. reflexivity.
      * exists 0%nat. reflexivity.
      * exists (length trace). simpl. rewrite (loop_run_endpoints _ _ _ _ _ _ _ L).
        reflexivity.
Qed.

(** ** getMyFollowers: what is requested *)



(** X6: the first followers request of [getMyFollowers] carries no
    pagination token, and every later one carries the [next_token] of the
    reply to the request just before it, which was a successful reply with
    a truthy token, and is made for the same user. *)
Theorem followers_cursor_threading {W} (fuel : nat) (auth : TwitterAuth W)
    (maxResults : Z) (w : W) :
  (forall pre user params r post,
     log_of (run (getMyFollowers fuel auth maxResults) w)
       = pre ++ CallFollowers user params r :: post ->
     page_requests pre = 0%nat ->
     pagination_token params = None) /\
  (forall pre user' params' r' user params r post,
     log_of (run (getMyFollowers fuel auth maxResults) w)
       = pre ++ CallFollowers user' params' r' :: CallFollowers user params r :: post ->
     exists response,
       r' = Ok response /\
       pagination_token params = next_token (meta response) /\
       truthy (next_token (meta response)) = true /\
       user = user').
Proof.
  split.
  - intros pre user params r post Hlog Hfirst.
    apply getMyFollowers_request_shape in Hlog.
    destruct Hlog as (currentUser & earlier & token & Hpre & _ & Hparams & Hshape).
    subst params. simpl.
    destruct Hshape as [[_ ->] | (pre' & params' & response & users & -> & _)];
      [reflexivity|].
    subst pre. unfold page_requests in Hfirst. simpl in Hfirst.
    rewrite filter_app, length_app in Hfirst. simpl in Hfirst. lia.
  - intros pre user' params' r' user params r post Hlog.
    change (pre ++ CallFollowers user' params' r' :: CallFollowers user params r :: post)
      with (pre ++ [CallFollowers user' params' r'] ++ CallFollowers user params r :: post)
      in Hlog.
    rewrite app_assoc in Hlog.
    apply getMyFollowers_request_shape in Hlog.
    destruct Hlog as (currentUser & earlier & token & Hpre & _ & Hparams & Hshape).
    subst params. simpl.
    destruct Hshape as [[-> _] | (pre' & params'' & response & users & -> & _ & -> & Htr & _)].
    + destruct pre as [|? [|? ?]]; discriminate Hpre.
    + rewrite app_comm_cons in Hpre. apply app_inj_tail in Hpre.
      destruct Hpre as [_ Hlast]. inversion Hlast; subst.
      exists response. auto.
Qed.

Lemma followers_cursor_threading_witness :
  exists response,
    Script.page [alice; carol] (Some "t1"%string) = Ok response /\
    pagination_token (followers_params 3 (map toTwitterUser [alice; carol])
                                       (Some "t1"%string))
      = next_token (meta response) /\
    truthy (next_token (meta response)) = true /\
    "me"%string = "me"%string.
Proof.
  destruct (followers_cursor_threading 5 (Script.auth two_pages) 3 0%nat) as [_ T].
  apply (T [CallMe (Script.account "me")]
           "me"%string (followers_params 3 [] None)
           (Script.page [alice; carol] (Some "t1"%string))
           "me"%string
           (followers_params 3 (map toTwitterUser [alice; carol]) (Some "t1"%string))
           (Script.page [dave] None) []).
  reflexivity.
Defined.

(** ** isFollowingMe: the following request *)



(** ** getMyFollowers: what is returned, and when *)

(** X8: what [getMyFollowers] returns is the list of all the entries of all
    the pages it received, each converted, in the order of arrival: nothing
    is dropped, repeated or reordered. *)
Theorem getMyFollowers_returns_received {W} (fuel : nat) (auth : TwitterAuth W)
    (maxResults : Z) (w : W) (followers : list TwitterUser.t) :
  result_of (run (getMyFollowers fuel auth maxResults) w) = Done followers ->
  followers
    = map toTwitterUser (received (log_of (run (getMyFollowers fuel auth maxResults) w))) /\
  map TwitterUser.id followers
    = map UserV2.id (received (log_of (run (getMyFollowers fuel auth maxResults) w))).
Proof.
  intros H. apply getMyFollowers_result in H. split; [exact H|].
  rewrite H at 1. rewrite map_map. reflexivity.
Qed.

Lemma getMyFollowers_returns_received_witness :
  map toTwitterUser [alice; carol; dave]
    = map toTwitterUser
          (received (log_of (run (getMyFollowers 5 (Script.auth two_pages) 3) 0%nat))) /\
  map TwitterUser.id (map toTwitterUser [alice; carol; dave])
    = map UserV2.id
          (received (log_of (run (getMyFollowers 5 (Script.auth two_pages) 3) 0%nat))).
Proof.
  apply (getMyFollowers_returns_received 5 (Script.auth two_pages) 3 0%nat).
  reflexivity.
Defined.

(** X9: a page with data whose [next_token] is absent or empty is the last
    request of the execution, and the function returns everything received
    up to and including that page. *)
Theorem last_page_ends_listing {W} (fuel : nat) (auth : TwitterAuth W) (maxResults : Z)
    (w : W) pre user params response users post :
  log_of (run (getMyFollowers fuel auth maxResults) w)
    = pre ++ CallFollowers user params (Ok response) :: post ->
  data response = Some users ->
  next_token (meta response) = None \/ next_token (meta response) = Some EmptyString ->
  post = [] /\
  result_of (run (getMyFollowers fuel auth maxResults) w)
    = Done (map toTwitterUser (received pre ++ users)).
Proof.
  intros Hlog D Hn.
  assert (Ht : truthy (next_token (meta response)) = false)
    by (destruct Hn as [-> | ->]; reflexivity).
  apply getMyFollowers_at_request in Hlog.
  destruct Hlog as (v2client & currentUserId & token & out & R & Hres).
  rewrite Hres, map_app.
  inversion R; subst;
    repeat match goal with
           | H : data ?r = Some _, H' : data ?r = _ |- _ =>
               rewrite H in H'; first [discriminate H' | inversion H'; subst; clear H']
           end;
    try (split; reflexivity).
  congruence.
Qed.

Lemma last_page_ends_listing_witness :
  @nil event = [] /\
  result_of (run (getMyFollowers 5 (Script.auth blank_cursor) 10) 0%nat)
    = Done (map toTwitterUser ([] ++ [alice])).
Proof.
  apply (last_page_ends_listing 5 (Script.auth blank_cursor) 10 0%nat
           [CallMe (Script.account "me")] "me" (followers_params 10 [] None)
           {| data := Some [alice]; meta := {| next_token := Some EmptyString |} |}
           [alice] []).
  - reflexivity.
  - reflexivity.
  - right; reflexivity.
Defined.








(** ** getMyFollowers: termination and the iteration bound *)


Section Termination.
Context {W : Type} (v2client : V2.t W) (currentUserId : string) (maxResults : Z).


End Termination.





